(** * automl: dataset profiling and column-selection transformers

    A shallow embedding of [automl/schema/enums.py],
    [automl/schema/descriptors.py], [automl/common.py] and
    [automl/transformer.py], with the properties of the profiling
    pipeline and of the four fit/transform components.

    Python values are modelled as follows.
    - An exception is a value of [exception]: its class, a structured
      message (the payload the f-string interpolates) and the [__cause__]
      set by [raise ... from e].
    - A function that may raise returns [result A].
    - A method of a transformer runs in a state-and-exception monad over
      the instance: attributes assigned before an exception is raised stay
      assigned.
    - The dataframe engine (pandas, numpy) and scikit-learn's helpers are
      external to the repository; the parts the code calls are modelled
      from their documented behaviour (pandas 2.x, numpy's scalar type
      hierarchy).  Floating-point statistics are idealised as rationals. *)

From Stdlib Require Import ZArith QArith String List Bool Lia.
From stdpp Require Import gmap strings.
Import ListNotations.

Local Open Scope string_scope.
Local Open Scope list_scope.

(* ===================================================================== *)
(** * numpy: the scalar type hierarchy *)
(* ===================================================================== *)

Module np.

(** The concrete scalar types a [np.dtype] can have. *)
Inductive scalar_type : Type :=
| int8 | int16 | int32 | int64
| uint8 | uint16 | uint32 | uint64
| float16 | float32 | float64 | longdouble
| complex64 | complex128 | clongdouble
| bool_ | datetime64 | timedelta64
| object_ | str_ | bytes_ | void.

(** The abstract classes above them. *)
Inductive abstract : Type :=
| generic | number | integer | signedinteger | unsignedinteger
| inexact | floating | complexfloating | flexible | character.

Inductive class : Type :=
| Abstract (a : abstract)
| Concrete (t : scalar_type).

#[global] Instance scalar_type_eq_dec : EqDecision scalar_type.
Proof. solve_decision. Defined.
#[global] Instance abstract_eq_dec : EqDecision abstract.
Proof. solve_decision. Defined.
#[global] Instance class_eq_dec : EqDecision class.
Proof. solve_decision. Defined.

(** The abstract part of [t.__mro__].  [timedelta64] derives from
    [signedinteger] in numpy. *)
Definition mro (t : scalar_type) : list abstract :=
  match t with
  | int8 | int16 | int32 | int64 => [signedinteger; integer; number; generic]
  | uint8 | uint16 | uint32 | uint64 => [unsignedinteger; integer; number; generic]
  | float16 | float32 | float64 | longdouble => [floating; inexact; number; generic]
  | complex64 | complex128 | clongdouble => [complexfloating; inexact; number; generic]
  | bool_ => [generic]
  | datetime64 => [generic]
  | timedelta64 => [signedinteger; integer; number; generic]
  | object_ => [generic]
  | str_ | bytes_ => [character; flexible; generic]
  | void => [flexible; generic]
  end.

Definition issubclass (t : scalar_type) (c : class) : bool :=
  match c with
  | Concrete t' => bool_decide (t = t')
  | Abstract a => bool_decide (a ∈ mro t)
  end.

End np.

(* ===================================================================== *)
(** * Cell values and storage types *)
(* ===================================================================== *)

(** A value stored in a column.  Floats are idealised as rationals. *)
Inductive scalar : Type :=
| VInt (z : Z)
| VFloat (q : Q)
| VBool (b : bool)
| VStr (s : string)
| VDatetime (ns : Z).

(** A cell: [None] is a missing entry (NaN, None, NaT). *)
Definition cell : Type := option scalar.

Definition scalar_eqb (a b : scalar) : bool :=
  match a, b with
  | VInt x, VInt y => Z.eqb x y
  | VFloat x, VFloat y => Qeq_bool x y
  | VBool x, VBool y => Bool.eqb x y
  | VStr x, VStr y => String.eqb x y
  | VDatetime x, VDatetime y => Z.eqb x y
  | _, _ => false
  end.

(** Missing entries compare equal to each other, as in [duplicated] and
    [nunique]. *)
Definition cell_eqb (a b : cell) : bool :=
  match a, b with
  | None, None => true
  | Some x, Some y => scalar_eqb x y
  | _, _ => false
  end.

(** A pandas extension type other than the categorical one, by the
    attributes of the [ExtensionDtype] interface that are read here: its
    [name]; its scalar [type] when that is a numpy scalar type (it is
    for the nullable integers, floats and booleans, and is not where it
    is [str], [Timestamp], [Period] or [Interval]); its [kind]; and the
    flags [_is_numeric] and [_is_boolean]. *)
Record extension_dtype : Type := mk_extension_dtype {
  ext_name : string;
  ext_type : option np.scalar_type;
  ext_kind : string;
  ext_is_numeric : bool;
  ext_is_boolean : bool;
}.

#[global] Instance extension_dtype_eq_dec : EqDecision extension_dtype.
Proof. solve_decision. Defined.

(** Extension types that pandas ships. *)
Definition Int64Dtype : extension_dtype :=
  mk_extension_dtype "Int64" (Some np.int64) "i" true false.
Definition Float64Dtype : extension_dtype :=
  mk_extension_dtype "Float64" (Some np.float64) "f" true false.
Definition BooleanDtype : extension_dtype :=
  mk_extension_dtype "boolean" (Some np.bool_) "b" true true.
Definition StringDtype : extension_dtype :=
  mk_extension_dtype "string" None "O" false false.
Definition DatetimeTZDtype (tz : string) : extension_dtype :=
  mk_extension_dtype (String.append "datetime64[ns, " (String.append tz "]"))
                     None "M" false false.
Definition PeriodDtype (freq : string) : extension_dtype :=
  mk_extension_dtype (String.append "period[" (String.append freq "]"))
                     None "O" false false.
Definition IntervalDtype (subtype closed : string) : extension_dtype :=
  mk_extension_dtype
    (String.append "interval[" (String.append subtype
       (String.append ", " (String.append closed "]"))))
    None "O" false false.

(** The storage type of a column: a numpy dtype, pandas' categorical
    type, or another pandas extension type. *)
Inductive dtype : Type :=
| NpDtype (t : np.scalar_type)
| CategoricalDtype (categories : list scalar) (ordered : bool)
| ExtensionDtype (e : extension_dtype).

(** [dtype.type] where it is a numpy scalar type. *)
Definition dtype_type (d : dtype) : option np.scalar_type :=
  match d with
  | NpDtype t => Some t
  | CategoricalDtype _ _ => None
  | ExtensionDtype e => ext_type e
  end.

(** [dtype._is_numeric] and [dtype._is_boolean], which only extension
    types have. *)
Definition _is_numeric (d : dtype) : bool :=
  match d with
  | ExtensionDtype e => ext_is_numeric e
  | _ => false
  end.
Definition _is_boolean (d : dtype) : bool :=
  match d with
  | ExtensionDtype e => ext_is_boolean e
  | _ => false
  end.

Definition scalar_mem (x : scalar) (l : list scalar) : bool :=
  existsb (scalar_eqb x) l.

Fixpoint scalars_eqb (l1 l2 : list scalar) : bool :=
  match l1, l2 with
  | [], [] => true
  | x :: l1', y :: l2' => scalar_eqb x y && scalars_eqb l1' l2'
  | _, _ => false
  end.

(** [dtype1 == dtype2]: ordered categoricals compare their categories in
    order, unordered ones as sets. *)
Definition dtype_eqb (d1 d2 : dtype) : bool :=
  match d1, d2 with
  | NpDtype t1, NpDtype t2 => bool_decide (t1 = t2)
  | CategoricalDtype c1 o1, CategoricalDtype c2 o2 =>
      Bool.eqb o1 o2 &&
      (if o1 then scalars_eqb c1 c2
       else forallb (fun x => scalar_mem x c2) c1 &&
            forallb (fun x => scalar_mem x c1) c2)
  | ExtensionDtype e1, ExtensionDtype e2 => bool_decide (e1 = e2)
  | _, _ => false
  end.

(* ===================================================================== *)
(** * Exceptions *)
(* ===================================================================== *)

Inductive exception_class : Type :=
| TypeError | ValueError | KeyError | AttributeError
| NotFittedError | ValidationError | IndexingError.

(** What an exception's message says; the arguments are the values the
    source interpolates into it. *)
Inductive message : Type :=
(* common.py *)
| X_not_DataFrame
| X_empty_DataFrame
| columns_length_0
(* enums.py, descriptors.py *)
| Unsupported_dtype (d : dtype)
| Unsupported_column_dtype (d : dtype)
| Target_one_unique_value (colname : string)
| scheme_not_valid (scheme : string) (dtype_name : string)
| value_not_valid (value : option scalar) (dtype_name : string)
(* transformer.py *)
| not_in_DataFrame (cols : list string)
| dropping_results_in_empty (cols : list string)
| types_result_in_empty
| dtypes_not_equal (fit_types transform_types : list (string * dtype))
| columns_not_equal
| wrong_shape (trained got : nat)
(* raised by Python itself, pandas, numpy or scikit-learn *)
| no_attribute (obj attr : string)
| not_size_1
| key_not_found (key : string)
| not_identically_labeled
| cannot_interpret_dtype
| select_dtypes_empty
| string_dtypes_not_allowed
| select_dtypes_overlap
| unalignable_boolean_indexer
| could_not_convert
| not_fitted_yet
| field_constraint (field : string).

(** [issubclass(c, ValueError)]: pydantic's [ValidationError] and
    scikit-learn's [NotFittedError] derive from [ValueError]. *)
Definition is_ValueError (c : exception_class) : bool :=
  match c with
  | ValueError | ValidationError | NotFittedError => true
  | TypeError | KeyError | AttributeError | IndexingError => false
  end.

(** [exn C msg] is [C(msg)]; [exn_from C msg e] is the exception raised
    by [raise C(msg) from e], whose [__cause__] is [e]. *)
Inductive exception : Type :=
| exn (cls : exception_class) (msg : message)
| exn_from (cls : exception_class) (msg : message) (cause : exception).

Definition exn_class (e : exception) : exception_class :=
  match e with exn c _ | exn_from c _ _ => c end.
Definition exn_msg (e : exception) : message :=
  match e with exn _ m | exn_from _ m _ => m end.
Definition exn_cause (e : exception) : option exception :=
  match e with exn _ _ => None | exn_from _ _ c => Some c end.

(** The messages along the [__cause__] chain, outermost first. *)
Fixpoint chain (e : exception) : list message :=
  match e with
  | exn _ m => [m]
  | exn_from _ m e' => m :: chain e'
  end.

(** The failure taxonomy of the specification, as exceptions. *)
Definition WrongInputType : exception := exn TypeError X_not_DataFrame.
Definition EmptyInput : exception := exn ValueError X_empty_DataFrame.
Definition EmptyColumnList : exception := exn ValueError columns_length_0.
Definition NotFitted : exception := exn NotFittedError not_fitted_yet.
Definition UnsupportedType (d : dtype) : exception := exn ValueError (Unsupported_dtype d).
Definition InvalidTarget (colname : string) : exception :=
  exn ValueError (Target_one_unique_value colname).

(** A failure is a schema mismatch when it is the [ValueError] that
    [PandasTypeSelector.transform] re-raises. *)
Definition is_SchemaMismatch (e : exception) : Prop :=
  exn_class e = ValueError ∧ exn_msg e = columns_not_equal.

(** A failure carries both type sets when some exception on its cause
    chain was built from them. *)
Definition carries_type_sets (e : exception)
    (fit_types transform_types : list (string * dtype)) : Prop :=
  In (dtypes_not_equal fit_types transform_types) (chain e).

(* ===================================================================== *)
(** * Computations that may raise *)
(* ===================================================================== *)

Inductive result (A : Type) : Type :=
| Ok (a : A)
| Raise (e : exception).
Arguments Ok {A} a.
Arguments Raise {A} e.

#[global] Instance result_ret : MRet result := fun A a => Ok a.
#[global] Instance result_bind : MBind result := fun A B f m =>
  match m with
  | Ok a => f a
  | Raise e => Raise e
  end.

(** [for x in xs: ys.append(f(x))] *)
Fixpoint for_each {A B} (f : A → result B) (xs : list A) : result (list B) :=
  match xs with
  | [] => Ok []
  | x :: xs' => y ← f x; ys ← for_each f xs'; Ok (y :: ys)
  end.

(* ===================================================================== *)
(** * enums.py *)
(* ===================================================================== *)

Inductive Dtypes : Type := INTERGER | FLOAT | BOOLEAN | CATEGORICAL | DATE.
Inductive ColumnType : Type := FEATURES | TARGET | INDEX | UNIQUEID.
Inductive FeatureType : Type := Ordinal | Nominal | Continuous | constant.
Inductive ImputationScheme : Type := MEAN | MEDIAN | MODE | VALUE.

#[global] Instance Dtypes_eq_dec : EqDecision Dtypes.
Proof. solve_decision. Defined.
#[global] Instance ColumnType_eq_dec : EqDecision ColumnType.
Proof. solve_decision. Defined.
#[global] Instance FeatureType_eq_dec : EqDecision FeatureType.
Proof. solve_decision. Defined.
#[global] Instance ImputationScheme_eq_dec : EqDecision ImputationScheme.
Proof. solve_decision. Defined.

(** The enums mix in [str]: a member is its string value, and [==]
    compares these strings, also across enums. *)
Definition Dtypes_value (d : Dtypes) : string :=
  match d with
  | INTERGER => "integer" | FLOAT => "float" | BOOLEAN => "bool"
  | CATEGORICAL => "categorical" | DATE => "date"
  end.
Definition Dtypes_name (d : Dtypes) : string :=
  match d with
  | INTERGER => "INTERGER" | FLOAT => "FLOAT" | BOOLEAN => "BOOLEAN"
  | CATEGORICAL => "CATEGORICAL" | DATE => "DATE"
  end.
Definition ColumnType_value (c : ColumnType) : string :=
  match c with
  | FEATURES => "features" | TARGET => "target"
  | INDEX => "index" | UNIQUEID => "unique-id"
  end.
Definition FeatureType_value (f : FeatureType) : string :=
  match f with
  | Ordinal => "Ordinal" | Nominal => "Nominal"
  | Continuous => "Continuous" | constant => "constant"
  end.
Definition ImputationScheme_value (s : ImputationScheme) : string :=
  match s with
  | MEAN => "mean" | MEDIAN => "median" | MODE => "mode" | VALUE => "value"
  end.

(** [FeatureType.<attr>]: the members by name; any other name raises
    [AttributeError]. *)
Definition FeatureType_getattr (attr : string) : result FeatureType :=
  if String.eqb attr "Ordinal" then Ok Ordinal
  else if String.eqb attr "Nominal" then Ok Nominal
  else if String.eqb attr "Continuous" then Ok Continuous
  else if String.eqb attr "constant" then Ok constant
  else Raise (exn AttributeError (no_attribute "FeatureType" attr)).

(** [is_categorical_dtype(dtype)] *)
Definition is_categorical_dtype (d : dtype) : bool :=
  match d with
  | CategoricalDtype _ _ => true
  | NpDtype _ | ExtensionDtype _ => false
  end.

(** [np.issubdtype(dtype, cls)]: numpy cannot interpret an extension
    type and raises [TypeError]. *)
Definition issubdtype (d : dtype) (c : np.class) : result bool :=
  match d with
  | NpDtype t => Ok (np.issubclass t c)
  | CategoricalDtype _ _ | ExtensionDtype _ =>
      Raise (exn TypeError cannot_interpret_dtype)
  end.

(** [Dtypes.from_nptype] *)
Definition from_nptype (d : dtype) : result Dtypes :=
  if is_categorical_dtype d then Ok CATEGORICAL else
  b ← issubdtype d (np.Abstract np.integer);
  if b : bool then Ok INTERGER else
  b ← issubdtype d (np.Abstract np.floating);
  if b : bool then Ok FLOAT else
  b ← issubdtype d (np.Concrete np.bool_);
  if b : bool then Ok BOOLEAN else
  b ← issubdtype d (np.Concrete np.datetime64);
  if b : bool then Ok DATE else
  b1 ← issubdtype d (np.Concrete np.object_);
  b2 ← (if b1 : bool then Ok true else issubdtype d (np.Concrete np.str_));
  if b2 : bool then Ok CATEGORICAL else
  Raise (exn ValueError (Unsupported_dtype d)).

(** ** The rule table of the specification (section 4.1) *)

Module TypeInference.




End TypeInference.

(* ===================================================================== *)
(** * pandas: Series *)
(* ===================================================================== *)

(** A Python float: a rational or NaN. *)
Inductive pyfloat : Type :=
| nan
| fin (q : Q).

Definition scalar_rank (a : scalar) : Z :=
  match a with
  | VBool _ => 0 | VInt _ => 1 | VFloat _ => 2 | VStr _ => 3 | VDatetime _ => 4
  end%Z.

(** The order [sort_values] uses inside a column (values of one type). *)
Definition scalar_leb (a b : scalar) : bool :=
  match a, b with
  | VInt x, VInt y => Z.leb x y
  | VFloat x, VFloat y => Qle_bool x y
  | VBool x, VBool y => implb x y
  | VStr x, VStr y => String.leb x y
  | VDatetime x, VDatetime y => Z.leb x y
  | _, _ => Z.leb (scalar_rank a) (scalar_rank b)
  end.

Fixpoint insert_sorted (x : scalar) (l : list scalar) : list scalar :=
  match l with
  | [] => [x]
  | y :: l' => if scalar_leb x y then x :: l else y :: insert_sorted x l'
  end.

Definition sort_values (l : list scalar) : list scalar :=
  fold_right insert_sorted [] l.

(** The distinct values, each at its first occurrence. *)
Fixpoint unique (l : list scalar) : list scalar :=
  match l with
  | [] => []
  | x :: l' => x :: List.filter (fun y => negb (scalar_eqb x y)) (unique l')
  end.

Definition occurrences (x : scalar) (l : list scalar) : nat :=
  length (List.filter (scalar_eqb x) l).

(** [lib.infer_dtype] of the values of an index. *)
Definition inferred_type (l : list scalar) : string :=
  match l with
  | [] => "empty"
  | _ =>
    if forallb (fun v => match v with VStr _ => true | _ => false end) l then "string"
    else if forallb (fun v => match v with VBool _ => true | _ => false end) l then "boolean"
    else if forallb (fun v => match v with VInt _ => true | _ => false end) l then "integer"
    else if forallb (fun v => match v with VFloat _ => true | _ => false end) l then "floating"
    else if forallb (fun v => match v with VDatetime _ => true | _ => false end) l then "datetime64"
    else "mixed"
  end.

Module Series.

Record t : Type := mk {
  name : string;
  dtype : dtype;
  values : list cell;
}.

(** [s.dropna()] *)
Definition dropna (s : t) : list scalar := omap id (values s).

(** [s.count()]: the number of entries that are not missing. *)
Definition count (s : t) : Z := Z.of_nat (length (dropna s)).

(** [s.isna().sum()] *)
Definition isna_sum (s : t) : Z :=
  Z.of_nat (length (List.filter (fun c : cell => negb (bool_decide (is_Some c))) (values s))).

(** [s.nunique()]: the number of distinct values, missing ones excluded. *)
Definition nunique (s : t) : Z := Z.of_nat (length (unique (dropna s))).

(** The number a value counts as in a numeric reduction; text and
    timestamps have none. *)
Definition numeric_value (v : scalar) : result Q :=
  match v with
  | VInt z => Ok (inject_Z z)
  | VFloat q => Ok q
  | VBool b => Ok (if b then 1%Q else 0%Q)
  | VStr _ | VDatetime _ => Raise (exn TypeError could_not_convert)
  end.

(** [s.mean()]: NaN when every entry is missing. *)
Definition mean (s : t) : result pyfloat :=
  xs ← for_each numeric_value (dropna s);
  match xs with
  | [] => Ok nan
  | _ => Ok (fin (Qred (fold_right Qplus 0%Q xs / inject_Z (Z.of_nat (length xs)))))
  end.

(** [s.median()]: the middle of the sorted values, the mean of the two
    middle ones for an even count, NaN when every entry is missing. *)
Definition median (s : t) : result pyfloat :=
  xs ← for_each numeric_value (dropna s);
  let sorted := sort_values (map VFloat xs) in
  let n := length sorted in
  let at_ i := match nth i sorted (VFloat 0) with VFloat q => q | _ => 0%Q end in
  match n with
  | O => Ok nan
  | _ => if Nat.even n
         then Ok (fin (Qred ((at_ (n / 2 - 1)%nat + at_ (n / 2)%nat) / 2)))
         else Ok (fin (Qred (at_ (n / 2)%nat)))
  end.

(** [s.mode()]: the most frequent values (missing ones excluded), in
    ascending order, for categorical storage in the order of the
    categories; empty when every entry is missing. *)
Definition mode (s : t) : list scalar :=
  let xs := dropna s in
  let us := unique xs in
  let top := fold_right Nat.max 0%nat (map (fun u => occurrences u xs) us) in
  let modes := List.filter (fun u => Nat.eqb (occurrences u xs) top) us in
  match dtype s with
  | CategoricalDtype categories _ => List.filter (fun c => scalar_mem c modes) categories
  | _ => sort_values modes
  end.

(** [x.item()] on the result [x] of [s.mean()] or [s.median()]: a numpy
    scalar gives its Python value.  What a reduction over no values
    returns has no [item]: it is the Python float [nan], and [pd.NA] for
    an extension type. *)
Definition item (s : t) (x : pyfloat) : result pyfloat :=
  match x with
  | fin q => Ok (fin q)
  | nan =>
      Raise (exn AttributeError
               (no_attribute (match dtype s with
                              | ExtensionDtype _ => "NAType"
                              | _ => "float"
                              end) "item"))
  end.

(** [r[0]] on the result of a reduction, labelled 0, 1, ... *)
Definition getitem_0 (r : list scalar) : result scalar :=
  match r with
  | [] => Raise (exn KeyError (key_not_found "0"))
  | x :: _ => Ok x
  end.

End Series.

(** ** [pandas.api.types] on a column *)

(** [is_numeric_dtype]: the scalar type is a number or a boolean and
    neither a datetime nor a timedelta, or the type is an extension type
    that declares itself numeric. *)
Definition is_numeric_dtype (s : Series.t) : bool :=
  match dtype_type (Series.dtype s) with
  | Some t =>
      (np.issubclass t (np.Abstract np.number) || np.issubclass t (np.Concrete np.bool_))
      && negb (np.issubclass t (np.Concrete np.datetime64)
               || np.issubclass t (np.Concrete np.timedelta64))
  | None => false
  end
  || _is_numeric (Series.dtype s).

(** [is_string_dtype]: for object storage, every entry is a string; for
    categorical storage, the categories are strings; of the other
    extension types, the one that equals ["string"]. *)
Definition is_string_dtype (s : Series.t) : bool :=
  match Series.dtype s with
  | NpDtype np.object_ =>
      forallb (fun c : cell => match c with Some (VStr _) => true | _ => false end)
              (Series.values s)
  | NpDtype np.str_ | NpDtype np.bytes_ => true
  | NpDtype _ => false
  | CategoricalDtype categories _ => String.eqb (inferred_type categories) "string"
  | ExtensionDtype e => String.eqb (ext_name e) "string"
  end.

(** [is_bool_dtype]: boolean storage, categorical storage over boolean
    categories, or an extension type that declares itself boolean. *)
Definition is_bool_dtype (s : Series.t) : bool :=
  match Series.dtype s with
  | NpDtype t => np.issubclass t (np.Concrete np.bool_)
  | CategoricalDtype categories _ => String.eqb (inferred_type categories) "boolean"
  | ExtensionDtype _ => _is_boolean (Series.dtype s)
  end.

(** [is_datetime64_any_dtype]: [datetime64] storage, with or without a
    time zone (the types of kind ["M"]). *)
Definition is_datetime64_any_dtype (s : Series.t) : bool :=
  match Series.dtype s with
  | NpDtype t => np.issubclass t (np.Concrete np.datetime64)
  | CategoricalDtype _ _ => false
  | ExtensionDtype e => String.eqb (ext_kind e) "M"
  end.

(* ===================================================================== *)
(** * pandas: DataFrame *)
(* ===================================================================== *)

(** [include] / [exclude] of [select_dtypes]: numpy classes, or
    ["category"]. *)
Inductive type_selector : Type :=
| SelClass (c : np.class)
| SelCategory.

#[global] Instance type_selector_eq_dec : EqDecision type_selector.
Proof. solve_decision. Defined.

(** Does a selector match a storage type?  A numpy class matches the
    types whose [type] derives from it, and [np.number] also the numeric
    extension types other than the boolean one. *)
Definition selector_matches (d : dtype) (sel : type_selector) : bool :=
  match sel with
  | SelClass c =>
      match dtype_type d with
      | Some t => np.issubclass t c
      | None => false
      end
      || (bool_decide (c = np.Abstract np.number) && _is_numeric d && negb (_is_boolean d))
  | SelCategory => is_categorical_dtype d
  end.

(** The selectors [select_dtypes] refuses: numpy's string types. *)
Definition is_string_selector (sel : type_selector) : bool :=
  bool_decide (sel = SelClass (np.Concrete np.str_))
  || bool_decide (sel = SelClass (np.Concrete np.bytes_)).

Module DataFrame.

(** Row labels and the columns, left to right.  Column names may repeat. *)
Record t : Type := mk {
  index : list Z;
  data : list Series.t;
}.

(** [df.columns] *)
Definition columns (df : t) : list string := map Series.name (data df).

(** [df.shape] *)
Definition shape (df : t) : nat * nat := (length (index df), length (data df)).

(** [df.empty]: some axis has length 0. *)
Definition empty (df : t) : bool :=
  Nat.eqb (fst (shape df)) 0 || Nat.eqb (snd (shape df)) 0.

(** [df.dtypes]: a Series of storage types labelled by column name. *)
Definition dtypes (df : t) : list (string * dtype) :=
  map (fun s => (Series.name s, Series.dtype s)) (data df).

(** What [df[key]] evaluates to for a single label. *)
Inductive item : Type :=
| ItemSeries (s : Series.t)
| ItemFrame (sub : t).

(** [df[key]]: the column of that name; a frame of all of them when the
    name repeats; [KeyError] when there is none. *)
Definition getitem (df : t) (key : string) : result item :=
  match List.filter (fun s => String.eqb (Series.name s) key) (data df) with
  | [] => Raise (exn KeyError (key_not_found key))
  | [s] => Ok (ItemSeries s)
  | ss => Ok (ItemFrame (mk (index df) ss))
  end.

(** [df[keys]] for a list of labels. *)
Fixpoint getitem_list (df : t) (keys : list string) : result (list Series.t) :=
  match keys with
  | [] => Ok []
  | k :: keys' =>
      match List.filter (fun s => String.eqb (Series.name s) k) (data df) with
      | [] => Raise (exn KeyError (key_not_found k))
      | ss => rest ← getitem_list df keys'; Ok (ss ++ rest)
      end
  end.

(** [df.drop(columns=cols)]: [KeyError] when a label is absent. *)
Definition drop (df : t) (cols : list string) : result t :=
  match List.filter (fun c => negb (bool_decide (c ∈ columns df))) cols with
  | [] => Ok (mk (index df)
                 (List.filter (fun s => negb (bool_decide (Series.name s ∈ cols))) (data df)))
  | missing => Raise (exn KeyError (not_in_DataFrame missing))
  end.

(** [df.select_dtypes(include, exclude)]: at least one of the two must
    be non-empty, neither may name a string type, and they may not
    overlap. *)
Definition select_dtypes (df : t) (include exclude : list type_selector) : result t :=
  match include, exclude with
  | [], [] => Raise (exn ValueError select_dtypes_empty)
  | _, _ =>
    if existsb is_string_selector include || existsb is_string_selector exclude
    then Raise (exn TypeError string_dtypes_not_allowed)
    else if existsb (fun i => bool_decide (i ∈ exclude)) include
    then Raise (exn ValueError select_dtypes_overlap)
    else Ok (mk (index df)
               (List.filter (fun s =>
                  (match include with
                   | [] => true
                   | _ => existsb (selector_matches (Series.dtype s)) include
                   end)
                  && negb (existsb (selector_matches (Series.dtype s)) exclude))
                  (data df)))
  end.

(** Row [i], across the columns. *)
Definition row (df : t) (i : nat) : list cell :=
  map (fun s => nth i (Series.values s) None) (data df).

Fixpoint cells_eqb (r1 r2 : list cell) : bool :=
  match r1, r2 with
  | [], [] => true
  | x :: r1', y :: r2' => cell_eqb x y && cells_eqb r1' r2'
  | _, _ => false
  end.

(** The keep-first mask: is entry [i] equal to an earlier one? *)
Fixpoint duplicated_mask {A} (eqb : A → A → bool) (seen xs : list A) : list bool :=
  match xs with
  | [] => []
  | x :: xs' => existsb (eqb x) seen :: duplicated_mask eqb (seen ++ [x]) xs'
  end.

(** [xs[mask]] *)
Fixpoint select_mask {A} (xs : list A) (mask : list bool) : list A :=
  match xs, mask with
  | x :: xs', b :: mask' => if b then x :: select_mask xs' mask' else select_mask xs' mask'
  | _, _ => []
  end.

(** [df.duplicated()]: an empty mask, without labels, for an empty
    frame. *)
Definition duplicated (df : t) : list bool :=
  if empty df then []
  else duplicated_mask cells_eqb [] (map (row df) (seq 0 (length (index df)))).

(** [df[mask].index] for a boolean Series [mask]: the labels the mask
    marks.  A mask that does not have the frame's labels cannot be
    aligned with it. *)
Definition index_where (df : t) (mask : list bool) : result (list Z) :=
  if Nat.eqb (length mask) (length (index df))
  then Ok (select_mask (index df) mask)
  else Raise (exn IndexingError unalignable_boolean_indexer).

(** [df.columns.duplicated()] *)
Definition columns_duplicated (df : t) : list bool :=
  duplicated_mask String.eqb [] (columns df).

End DataFrame.

(** [a != b] on two Series of storage types: element by element, and
    [ValueError] unless both carry the same labels in the same order. *)
Definition dtypes_ne (a b : list (string * dtype)) : result (list bool) :=
  if bool_decide (map fst a = map fst b)
  then Ok (map (fun p => negb (dtype_eqb (snd (fst p)) (snd (snd p)))) (combine a b))
  else Raise (exn ValueError not_identically_labeled).

(** [mask.any()] *)
Definition any (mask : list bool) : bool := existsb id mask.

(* ===================================================================== *)
(** * descriptors.py: ColumnDescriptor *)
(* ===================================================================== *)

(** [isinstance(v, (int, float))], [isinstance(v, str)] and
    [isinstance(v, bool)] on an optional field value; [bool] is a subclass
    of [int]. *)
Definition isinstance_int_float (v : option scalar) : bool :=
  match v with
  | Some (VInt _) | Some (VFloat _) | Some (VBool _) => true
  | _ => false
  end.
Definition isinstance_str (v : option scalar) : bool :=
  match v with Some (VStr _) => true | _ => false end.
Definition isinstance_bool (v : option scalar) : bool :=
  match v with Some (VBool _) => true | _ => false end.

Module ColumnDescriptor.

Record t : Type := mk {
  name : string;
  col_type : ColumnType;
  dtype : Dtypes;
  feature_type : FeatureType;
  count : Z;
  mean : option pyfloat;
  median : option pyfloat;
  mode : option scalar;
  null_count : Z;
  unique_valus : Z;
  imputation_scheme : option ImputationScheme;
  imputation_value : option scalar;
  is_selected : bool;
}.

(** The model validator [imputation_scheme], run after the fields are
    set. *)
Definition imputation_scheme_validator (values : t) : result t :=
  let dtype := dtype values in
  let imp_scheme := imputation_scheme values in
  let imp_value := imputation_value values in
  let scheme_error s := Raise (exn ValueError
                          (scheme_not_valid (ImputationScheme_value s) (Dtypes_name dtype))) in
  let value_error := Raise (exn ValueError (value_not_valid imp_value (Dtypes_name dtype))) in
  if bool_decide (dtype ∈ [INTERGER; FLOAT]) then
    if bool_decide (imp_scheme = Some MODE) then scheme_error MODE
    else if bool_decide (imp_scheme = Some VALUE) && negb (isinstance_int_float imp_value)
    then value_error
    else Ok values
  else if bool_decide (dtype = CATEGORICAL) then
    match imp_scheme with
    | Some MEAN => scheme_error MEAN
    | Some MEDIAN => scheme_error MEDIAN
    | _ =>
      if bool_decide (imp_scheme = Some VALUE) && negb (isinstance_str imp_value)
      then value_error
      else Ok values
    end
  else if bool_decide (dtype ∈ [BOOLEAN; DATE]) then
    match imp_scheme with
    | Some MEAN => scheme_error MEAN
    | Some MEDIAN => scheme_error MEDIAN
    | _ =>
      if bool_decide (imp_scheme = Some VALUE) && negb (isinstance_bool imp_value)
      then value_error
      else Ok values
    end
  else Ok values.

(** [cls(...)]: the declared field constraint ([null_count >= 0]), then
    the model validator.  Field values are shown as they are passed: the
    model class may change the representation of [mode] and
    [imputation_value] (a numpy scalar becomes a Python number, [True]
    becomes [1.0]), never whether they are [None].  The validator's
    [ValueError] is shown as it is raised; the model class reports it
    inside its own validation error, which is a [ValueError] too. *)
Definition new (values : t) : result t :=
  if (null_count values <? 0)%Z
  then Raise (exn ValidationError (field_constraint "null_count"))
  else imputation_scheme_validator values.

(** The statistics and classification of one branch of
    [build_from_dataset]. *)
Record profile : Type := mk_profile {
  p_mean : option pyfloat;
  p_median : option pyfloat;
  p_mode : option scalar;
  p_feature_type : FeatureType;
  p_dtypes : Dtypes;
}.

(** The branch on the column's storage type. *)
Definition classify (col : Series.t) : result profile :=
  if is_numeric_dtype col then
    mean ← Series.mean col;
    mean ← Series.item col mean;
    median ← Series.median col;
    median ← Series.item col median;
    mode ← Series.getitem_0 (Series.mode col);
    dtypes ← from_nptype (Series.dtype col);
    Ok (mk_profile (Some mean) (Some median) (Some mode) Continuous dtypes)
  else if is_string_dtype col || is_bool_dtype col then
    mode ← Series.getitem_0 (Series.mode col);
    dtypes ← (if is_categorical_dtype (Series.dtype col) then Ok CATEGORICAL
              else from_nptype (Series.dtype col));
    Ok (mk_profile None None (Some mode) Ordinal dtypes)
  else if is_datetime64_any_dtype col then
    dtypes ← from_nptype (Series.dtype col);
    Ok (mk_profile None None None Nominal dtypes)
  else Raise (exn ValueError (Unsupported_column_dtype (Series.dtype col))).

(** The check on a column with one distinct value.  The source compares
    [column_type] with [FeatureType.TARGET]. *)
Definition constant_check (colname : string) (column_type : ColumnType)
    (unique_valus : Z) (feature_type : FeatureType) : result FeatureType :=
  if (unique_valus =? 1)%Z then
    target ← FeatureType_getattr "TARGET";
    if String.eqb (ColumnType_value column_type) (FeatureType_value target)
    then Raise (exn ValueError (Target_one_unique_value colname))
    else Ok constant
  else Ok feature_type.

(** [ColumnDescriptor.build_from_dataset] *)
Definition build_from_dataset (dataset : DataFrame.t) (colname : string)
    (target_columns : list string) : result t :=
  item ← DataFrame.getitem dataset colname;
  match item with
  | DataFrame.ItemFrame _ =>
      (* [.count()] of a frame is a Series with one entry per column,
         and [.item()] needs exactly one *)
      Raise (exn ValueError not_size_1)
  | DataFrame.ItemSeries col =>
      let count := Series.count col in
      p ← classify col;
      let column_type :=
        if bool_decide (colname ∈ target_columns) then TARGET else FEATURES in
      let null_count := Series.isna_sum col in
      let unique_valus := Series.nunique col in
      feature_type ← constant_check colname column_type unique_valus (p_feature_type p);
      new (mk colname column_type (p_dtypes p) feature_type count
              (p_mean p) (p_median p) (p_mode p)
              null_count unique_valus None None true)
  end.

End ColumnDescriptor.

(* ===================================================================== *)
(** * descriptors.py: DatasetDescriptor *)
(* ===================================================================== *)

Module DatasetDescriptor.

Record t : Type := mk {
  row_count : Z;
  cloumns_info : list ColumnDescriptor.t;
  duplicate_rows : list Z;
  duplicate_columns : list string;
}.

(** [DatasetDescriptor(...)]: the declared field constraint. *)
Definition new (values : t) : result t :=
  if (row_count values <? 0)%Z
  then Raise (exn ValidationError (field_constraint "row_count"))
  else Ok values.

(** [DatasetDescriptor.build_from_dataset] *)
Definition build_from_dataset (dataset : DataFrame.t) (target_columns : list string)
    : result t :=
  let '(row_count, col_count) := DataFrame.shape dataset in
  duplicate_rows ← DataFrame.index_where dataset (DataFrame.duplicated dataset);
  let duplicate_columns :=
    DataFrame.select_mask (DataFrame.columns dataset) (DataFrame.columns_duplicated dataset) in
  cloumns_info ←
    for_each (fun column => ColumnDescriptor.build_from_dataset dataset column target_columns)
             (DataFrame.columns dataset);
  new (mk (Z.of_nat row_count) cloumns_info duplicate_rows duplicate_columns).

End DatasetDescriptor.

(* ===================================================================== *)
(** * The objects a transformer may be handed *)
(* ===================================================================== *)

(** A [pd.DataFrame], a two-dimensional [np.ndarray], or an object with
    none of the attributes used below ([None], a list, a string, ...). *)
Inductive pyobj : Type :=
| PyDataFrame (df : DataFrame.t)
| PyNdarray (shape : nat * nat) (data : list scalar)
| PyOther (type_name : string).

Definition type_name_of (X : pyobj) : string :=
  match X with
  | PyDataFrame _ => "DataFrame"
  | PyNdarray _ _ => "numpy.ndarray"
  | PyOther n => n
  end.

Definition no_attr {A} (X : pyobj) (attr : string) : result A :=
  Raise (exn AttributeError (no_attribute (type_name_of X) attr)).

(** [X.shape] *)
Definition py_shape (X : pyobj) : result (nat * nat) :=
  match X with
  | PyDataFrame df => Ok (DataFrame.shape df)
  | PyNdarray shape _ => Ok shape
  | PyOther _ => no_attr X "shape"
  end.

(** [X.dtypes] *)
Definition py_dtypes (X : pyobj) : result (list (string * dtype)) :=
  match X with
  | PyDataFrame df => Ok (DataFrame.dtypes df)
  | _ => no_attr X "dtypes"
  end.

(** [X.columns] *)
Definition py_columns (X : pyobj) : result (list string) :=
  match X with
  | PyDataFrame df => Ok (DataFrame.columns df)
  | _ => no_attr X "columns"
  end.

(** [X.drop(columns=cols)] *)
Definition py_drop (X : pyobj) (cols : list string) : result pyobj :=
  match X with
  | PyDataFrame df => df' ← DataFrame.drop df cols; Ok (PyDataFrame df')
  | _ => no_attr X "drop"
  end.

(** [X.select_dtypes(include=..., exclude=...)] *)
Definition py_select_dtypes (X : pyobj) (include exclude : list type_selector)
    : result pyobj :=
  match X with
  | PyDataFrame df => df' ← DataFrame.select_dtypes df include exclude; Ok (PyDataFrame df')
  | _ => no_attr X "select_dtypes"
  end.

(** [X[cols]] for a list of column names. *)
Definition py_getitem_list (X : pyobj) (cols : list string) : result pyobj :=
  match X with
  | PyDataFrame df =>
      ss ← DataFrame.getitem_list df cols;
      Ok (PyDataFrame (DataFrame.mk (DataFrame.index df) ss))
  | _ => no_attr X "__getitem__"
  end.

(* ===================================================================== *)
(** * common.py *)
(* ===================================================================== *)

(** The [columns] argument of a transformer: [Union[str, List[str]]]. *)
Inductive str_or_list : Type :=
| Name (s : string)
| Names (l : list string).

(** [as_list]: a string becomes a one-element list, an iterable the list
    of its elements. *)
Definition as_list (val : str_or_list) : list string :=
  match val with
  | Name s => [s]
  | Names l => l
  end.

(** Truth value of the argument: the empty string and the empty list are
    false. *)
Definition truthy (val : str_or_list) : bool :=
  match val with
  | Name s => negb (String.eqb s "")
  | Names l => negb (Nat.eqb (length l) 0)
  end.

(** [check_X_for_type] *)
Definition check_X_for_type (X : pyobj) : result unit :=
  match X with
  | PyDataFrame df =>
      if DataFrame.empty df
      then Raise (exn ValueError X_empty_DataFrame)
      else Ok tt
  | _ => Raise (exn TypeError X_not_DataFrame)
  end.

(** [check_column_length] *)
Definition check_column_length (columns : list string) : result unit :=
  if Nat.eqb (length columns) 0
  then Raise (exn ValueError columns_length_0)
  else Ok tt.

(* ===================================================================== *)
(** * Methods: state of the instance, and exceptions *)
(* ===================================================================== *)

(** A method body over an instance of type [S]: it returns or raises,
    and leaves the instance as its assignments made it. *)
Definition M (S A : Type) : Type := S → result A * S.

#[global] Instance M_ret {S} : MRet (M S) := fun A a s => (Ok a, s).
#[global] Instance M_bind {S} : MBind (M S) := fun A B k m s =>
  match m s with
  | (Ok a, s') => k a s'
  | (Raise e, s') => (Raise e, s')
  end.

(** Run a computation that does not touch the instance. *)
Definition lift {S A} (r : result A) : M S A := fun s => (r, s).
(** [self] *)
Definition self_ {S} : M S S := fun s => (Ok s, s).
(** [self.attr = v], through the record update [upd]. *)
Definition assign {S} (upd : S → S) : M S unit := fun s => (Ok tt, upd s).
Definition raise {S A} (e : exception) : M S A := lift (Raise e).

(** Reading an attribute that was never assigned raises
    [AttributeError]. *)
Definition getattr {A} (cls attr : string) (v : option A) : result A :=
  match v with
  | Some a => Ok a
  | None => Raise (exn AttributeError (no_attribute cls attr))
  end.

(** [try: body  except ValueError as e: handler(e)] *)
Definition except_ValueError {A} (body : result A) (handler : exception → result A)
    : result A :=
  match body with
  | Ok a => Ok a
  | Raise e => if is_ValueError (exn_class e) then handler e else Raise e
  end.

(** ** scikit-learn *)

(** [check_is_fitted(self, attributes)]: every listed attribute must
    exist on the instance. *)
Definition check_is_fitted (attributes : list bool) : result unit :=
  if forallb id attributes then Ok tt
  else Raise (exn NotFittedError not_fitted_yet).

Definition hasattr {A} (v : option A) : bool := bool_decide (is_Some v).

(** [sklearn.utils.check_array(X, copy=True, estimator=self)], external:
    it returns the validated array or raises. *)
Class sklearn_utils : Type := {
  check_array : pyobj → result pyobj;
}.

(* ===================================================================== *)
(** * transformer.py *)
(* ===================================================================== *)

(** [_check_column_names], shared by [ColumnDropper] and
    [ColumnSelector]: the requested names absent from [X.columns]. *)
Definition check_column_names (columns_ : list string) (X : pyobj) : result unit :=
  X_columns ← py_columns X;
  let non_existent_columns : gset string :=
    list_to_set columns_ ∖ list_to_set X_columns in
  if (0 <? size non_existent_columns)%nat
  then Raise (exn KeyError (not_in_DataFrame (elements non_existent_columns)))
  else Ok tt.

Module ColumnDropper.

Record t : Type := mk {
  columns : str_or_list;
  columns_ : option (list string);
  feature_names_ : option (list string);
}.

Definition __init__ (columns : str_or_list) : t := mk columns None None.

Definition _check_column_names (X : pyobj) : M t unit :=
  self ← self_;
  columns_ ← lift (getattr "ColumnDropper" "columns_" (columns_ self));
  lift (check_column_names columns_ X).

Definition _check_column_length : M t unit :=
  self ← self_;
  feature_names_ ← lift (getattr "ColumnDropper" "feature_names_" (feature_names_ self));
  columns_ ← lift (getattr "ColumnDropper" "columns_" (columns_ self));
  if Nat.eqb (length feature_names_) 0
  then raise (exn ValueError (dropping_results_in_empty columns_))
  else mret tt.

Definition fit (X : pyobj) : M t unit :=
  self ← self_;
  assign (fun self => mk (columns self) (Some (as_list (columns self))) (feature_names_ self));;
  lift (check_X_for_type X);;
  _check_column_names X;;
  self ← self_;
  columns_ ← lift (getattr "ColumnDropper" "columns_" (columns_ self));
  dropped ← lift (py_drop X columns_);
  names ← lift (py_columns dropped);
  assign (fun self => mk (columns self) (ColumnDropper.columns_ self) (Some names));;
  _check_column_length.

Definition transform (X : pyobj) : M t pyobj :=
  self ← self_;
  lift (check_is_fitted [hasattr (feature_names_ self)]);;
  lift (check_X_for_type X);;
  columns_ ← lift (getattr "ColumnDropper" "columns_" (columns_ self));
  if negb (Nat.eqb (length columns_) 0)
  then lift (py_drop X columns_)
  else mret X.

Definition get_feature_names : M t (list string) :=
  self ← self_;
  lift (getattr "ColumnDropper" "feature_names_" (feature_names_ self)).

End ColumnDropper.

Module PandasTypeSelector.

Record t : Type := mk {
  include : list type_selector;
  exclude : list type_selector;
  X_dtypes_ : option (list (string * dtype));
  feature_names_ : option (list string);
}.

(** [None] for [include] or [exclude] is the empty list. *)
Definition __init__ (include exclude : list type_selector) : t :=
  mk include exclude None None.

Definition fit (X : pyobj) : M t unit :=
  lift (check_X_for_type X);;
  X_dtypes ← lift (py_dtypes X);
  assign (fun self => mk (include self) (exclude self) (Some X_dtypes) (feature_names_ self));;
  self ← self_;
  selected ← lift (py_select_dtypes X (include self) (exclude self));
  names ← lift (py_columns selected);
  assign (fun self => mk (include self) (exclude self) (X_dtypes_ self) (Some names));;
  if Nat.eqb (length names) 0
  then raise (exn ValueError types_result_in_empty)
  else mret tt.

(** The guarded comparison of the recorded and the current storage
    types. *)
Definition check_dtypes (X_dtypes_ : option (list (string * dtype))) (X : pyobj)
    : result unit :=
  except_ValueError
    (fit_types ← getattr "PandasTypeSelector" "X_dtypes_" X_dtypes_;
     transform_types ← py_dtypes X;
     differ ← dtypes_ne fit_types transform_types;
     if any differ
     then Raise (exn ValueError (dtypes_not_equal fit_types transform_types))
     else Ok tt)
    (fun e => Raise (exn_from ValueError columns_not_equal e)).

Definition transform (X : pyobj) : M t pyobj :=
  self ← self_;
  lift (check_is_fitted [hasattr (X_dtypes_ self); hasattr (feature_names_ self)]);;
  lift (check_dtypes (X_dtypes_ self) X);;
  lift (check_X_for_type X);;
  lift (py_select_dtypes X (include self) (exclude self)).

(** Alias for [feature_names_]. *)
Definition get_feature_names : M t (list string) :=
  self ← self_;
  lift (getattr "PandasTypeSelector" "feature_names_" (feature_names_ self)).

End PandasTypeSelector.

Module ColumnSelector.

Record t : Type := mk {
  columns : str_or_list;
  columns_ : option (list string);
}.

Definition __init__ (columns : str_or_list) : t := mk columns None.

Definition _check_column_names (X : pyobj) : M t unit :=
  self ← self_;
  columns_ ← lift (getattr "ColumnSelector" "columns_" (columns_ self));
  lift (check_column_names columns_ X).

Definition fit (X : pyobj) : M t unit :=
  assign (fun self => mk (columns self) (Some (as_list (columns self))));;
  self ← self_;
  columns_ ← lift (getattr "ColumnSelector" "columns_" (columns_ self));
  lift (check_column_length columns_);;
  lift (check_X_for_type X);;
  _check_column_names X.

Definition transform (X : pyobj) : M t pyobj :=
  lift (check_X_for_type X);;
  self ← self_;
  if truthy (columns self)
  then
    columns_ ← lift (getattr "ColumnSelector" "columns_" (columns_ self));
    lift (py_getitem_list X columns_)
  else mret X.

(** Alias for [columns_]. *)
Definition get_feature_names : M t (list string) :=
  self ← self_;
  lift (getattr "ColumnSelector" "columns_" (columns_ self)).

End ColumnSelector.

Module IdentityTransformer.

Record t : Type := mk {
  check_X : bool;
  n_samples_ : option nat;
  n_features_in_ : option nat;
}.

Definition __init__ (check_X : bool) : t := mk check_X None None.

Definition fit `{sklearn_utils} (X : pyobj) : M t unit :=
  self ← self_;
  X ← (if check_X self then lift (check_array X) else mret X);
  shape ← lift (py_shape X);
  assign (fun self => mk (check_X self) (Some (fst shape)) (Some (snd shape))).

Definition transform `{sklearn_utils} (X : pyobj) : M t pyobj :=
  self ← self_;
  X ← (if check_X self then lift (check_array X) else mret X);
  lift (check_is_fitted [hasattr (n_features_in_ self)]);;
  shape ← lift (py_shape X);
  n_features_in_ ← lift (getattr "IdentityTransformer" "n_features_in_" (n_features_in_ self));
  if negb (Nat.eqb (snd shape) n_features_in_)
  then raise (exn ValueError (wrong_shape n_features_in_ (snd shape)))
  else mret X.

(** The property [shape_]. *)
Definition shape_ : M t (nat * nat) :=
  self ← self_;
  n_samples_ ← lift (getattr "IdentityTransformer" "n_samples_" (n_samples_ self));
  n_features_in_ ← lift (getattr "IdentityTransformer" "n_features_in_" (n_features_in_ self));
  mret (n_samples_, n_features_in_).

End IdentityTransformer.

(* ===================================================================== *)
(** * Vocabulary of the properties *)
(* ===================================================================== *)

(** A call of method body [m] on instance [self] fails with [e], or
    returns [a]. *)
Definition fails_with {S A} (m : M S A) (self : S) (e : exception) : Prop :=
  fst (m self) = Raise e.
Definition returns {S A} (m : M S A) (self : S) (a : A) : Prop :=
  fst (m self) = Ok a.

(** The two defects [check_X_for_type] looks for, with the failure each
    one is reported as. *)
Definition input_defect (X : pyobj) (e : exception) : Prop :=
  ((∀ df, X ≠ PyDataFrame df) ∧ e = WrongInputType)
  ∨ ((∃ df, X = PyDataFrame df ∧ DataFrame.empty df = true) ∧ e = EmptyInput).

(** The runtime type the [VALUE] scheme asks of [imputation_value], per
    dtype. *)
Definition value_type_ok (d : Dtypes) (v : option scalar) : bool :=
  match d with
  | INTERGER | FLOAT => isinstance_int_float v
  | CATEGORICAL => isinstance_str v
  | BOOLEAN | DATE => isinstance_bool v
  end.

(** An imputation configuration that does not fit the dtype. *)
Definition incompatible (d : Dtypes) (scheme : option ImputationScheme)
    (v : option scalar) : Prop :=
  (d ∈ [INTERGER; FLOAT] ∧ scheme = Some MODE)
  ∨ (d ∈ [CATEGORICAL; BOOLEAN; DATE] ∧ scheme ∈ [Some MEAN; Some MEDIAN])
  ∨ (scheme = Some VALUE ∧ value_type_ok d v = false).

(** The values of the declared type [float | int | str] of the fields
    [mode] and [imputation_value] that are no [bool], and [None]: the
    model class takes them as values of that type.  (It turns [True]
    into [1.0] before the model validator runs, and refuses objects of
    other types.) *)
Definition float_int_str (v : option scalar) : bool :=
  match v with
  | None | Some (VInt _) | Some (VFloat _) | Some (VStr _) => true
  | Some (VBool _) | Some (VDatetime _) => false
  end.

Definition is_InvalidImputationConfig (e : exception) : Prop :=
  exn_class e = ValueError
  ∧ ((∃ scheme dtype_name, exn_msg e = scheme_not_valid scheme dtype_name)
     ∨ (∃ value dtype_name, exn_msg e = value_not_valid value dtype_name)).

(** The storage type recorded for column [c] in a Series of types. *)
Fixpoint dtype_of (types : list (string * dtype)) (c : string) : option dtype :=
  match types with
  | [] => None
  | (c', d) :: types' => if String.eqb c' c then Some d else dtype_of types' c
  end.

(** The columns [select_dtypes(include, exclude)] keeps: of a type
    matched by [include] (any type when [include] is empty) and by
    nothing in [exclude]. *)
Definition selected_by (include exclude : list type_selector) (s : Series.t) : bool :=
  (match include with
   | [] => true
   | _ => existsb (selector_matches (Series.dtype s)) include
   end)
  && negb (existsb (selector_matches (Series.dtype s)) exclude).

(** The columns [drop(columns=cols)] keeps. *)
Definition kept_by (cols : list string) (s : Series.t) : bool :=
  negb (bool_decide (Series.name s ∈ cols)).

(** What [fit] and [transform] of an [IdentityTransformer] work on: the
    array [check_array] returns when the flag is on, the input itself
    otherwise. *)
Definition validated `{sklearn_utils} (flag : bool) (X : pyobj) : result pyobj :=
  if flag then check_array X else Ok X.

(** ** Proof automation *)

(** Split [x ∈ [a; b; ...]] into the cases [x = a], [x = b], ... *)
Ltac members H :=
  repeat (apply elem_of_cons in H as [H | H]; [subst |]);
  [.. | by apply elem_of_nil in H].

(** Unfold the monad of method bodies and compute. *)
Ltac run_method :=
  unfold mbind, M_bind, mret, M_ret, lift, assign, self_, raise in *; simpl in *.

(** Decide a closed membership goal, or refute a closed membership
    hypothesis, by computation. *)
Ltac closed_elem :=
  match goal with
  | H : _ ∈ _ |- _ => apply (bool_decide_pack _) in H; vm_compute in H; by destruct H
  | |- _ ∈ _ => apply (bool_decide_unpack _); vm_compute; exact I
  end.

(** Prove [∀ c, c ∈ l → c ∈ l'] for closed lists. *)
Ltac each_member :=
  let c := fresh "c" in
  let H := fresh "H" in
  intros c H; simpl in H;
  repeat (apply elem_of_cons in H as [-> | H]; [closed_elem |]);
  by apply elem_of_nil in H.

(* ===================================================================== *)
(** * Sample data *)
(* ===================================================================== *)

Module Samples.

(** An integer column holding one value three times. *)
Definition constant_frame : DataFrame.t :=
  DataFrame.mk [0; 1; 2]%Z
    [Series.mk "x" (NpDtype np.int64) [Some (VInt 1); Some (VInt 1); Some (VInt 1)]].

(** A boolean column. *)
Definition flags_frame : DataFrame.t :=
  DataFrame.mk [0; 1; 2]%Z
    [Series.mk "flag" (NpDtype np.bool_)
       [Some (VBool true); Some (VBool false); Some (VBool true)]].

(** An integer and a text column. *)
Definition mixed_frame : DataFrame.t :=
  DataFrame.mk [0; 1; 2]%Z
    [Series.mk "id" (NpDtype np.int64) [Some (VInt 3); Some (VInt 1); Some (VInt 2)];
     Series.mk "s" (NpDtype np.object_) [Some (VStr "a"); Some (VStr "b"); Some (VStr "a")]].

(** The profile of [mixed_frame] with target ["id"]. *)
Definition mixed_descriptor : DatasetDescriptor.t :=
  DatasetDescriptor.mk 3
    [ColumnDescriptor.mk "id" TARGET INTERGER Continuous 3
       (Some (fin 2)) (Some (fin 2)) (Some (VInt 1)) 0 3 None None true;
     ColumnDescriptor.mk "s" FEATURES CATEGORICAL Ordinal 3
       None None (Some (VStr "a")) 0 2 None None true]
    [] [].

(** Two columns, both named ["x"]. *)
Definition twice_x_frame : DataFrame.t :=
  DataFrame.mk [0; 1]%Z
    [Series.mk "x" (NpDtype np.int64) [Some (VInt 1); Some (VInt 2)];
     Series.mk "x" (NpDtype np.int64) [Some (VInt 3); Some (VInt 4)]].

(** [mixed_frame] with ["id"] stored as floats and one more column. *)
Definition widened_frame : DataFrame.t :=
  DataFrame.mk [0; 1; 2]%Z
    [Series.mk "id" (NpDtype np.float64)
       [Some (VFloat 3); Some (VFloat 1); Some (VFloat 2)];
     Series.mk "s" (NpDtype np.object_) [Some (VStr "a"); Some (VStr "b"); Some (VStr "a")];
     Series.mk "extra" (NpDtype np.int64) [Some (VInt 0); Some (VInt 0); Some (VInt 1)]].

(** [mixed_frame] with ["id"] stored as floats. *)
Definition retyped_frame : DataFrame.t :=
  DataFrame.mk [0; 1; 2]%Z
    [Series.mk "id" (NpDtype np.float64)
       [Some (VFloat 3); Some (VFloat 1); Some (VFloat 2)];
     Series.mk "s" (NpDtype np.object_) [Some (VStr "a"); Some (VStr "b"); Some (VStr "a")]].

(** A selector of the numeric columns. *)
Definition number_selector : PandasTypeSelector.t :=
  PandasTypeSelector.__init__ [SelClass (np.Abstract np.number)] [].

(** The same selector after [fit] on [mixed_frame]. *)
Definition fitted_number_selector : PandasTypeSelector.t :=
  PandasTypeSelector.mk [SelClass (np.Abstract np.number)] []
    (Some [("id", NpDtype np.int64); ("s", NpDtype np.object_)])
    (Some ["id"]).

(** A stand-in for [check_array] that accepts everything. *)
Definition lenient : sklearn_utils := {| check_array := fun X => Ok X |}.

(** Rows 2 and 4 repeat row 0. *)
Definition repeated_rows_frame : DataFrame.t :=
  DataFrame.mk [0; 1; 2; 3; 4]%Z
    [Series.mk "a" (NpDtype np.int64)
       [Some (VInt 1); Some (VInt 2); Some (VInt 1); Some (VInt 3); Some (VInt 1)];
     Series.mk "b" (NpDtype np.object_)
       [Some (VStr "x"); Some (VStr "y"); Some (VStr "x"); Some (VStr "z"); Some (VStr "x")]].

(** The profile of [repeated_rows_frame] without targets. *)
Definition repeated_rows_descriptor : DatasetDescriptor.t :=
  DatasetDescriptor.mk 5
    [ColumnDescriptor.mk "a" FEATURES INTERGER Continuous 5
       (Some (fin (8 # 5))) (Some (fin 1)) (Some (VInt 1)) 0 3 None None true;
     ColumnDescriptor.mk "b" FEATURES CATEGORICAL Ordinal 5
       None None (Some (VStr "x")) 0 3 None None true]
    [2; 4]%Z [].

(** A float column with every entry missing. *)
Definition all_missing_frame : DataFrame.t :=
  DataFrame.mk [0; 1]%Z [Series.mk "v" (NpDtype np.float64) [None; None]].

(** A timestamp column with one entry missing. *)
Definition timestamps_frame : DataFrame.t :=
  DataFrame.mk [0; 1; 2]%Z
    [Series.mk "when" (NpDtype np.datetime64)
       [Some (VDatetime 10); None; Some (VDatetime 20)]].

(** The descriptor of its column. *)
Definition timestamps_descriptor : ColumnDescriptor.t :=
  ColumnDescriptor.mk "when" FEATURES DATE Nominal 2 None None None 1 2 None None true.

(** The two column descriptors of [mixed_frame] with target ["id"]. *)
Definition id_descriptor : ColumnDescriptor.t :=
  ColumnDescriptor.mk "id" TARGET INTERGER Continuous 3
    (Some (fin 2)) (Some (fin 2)) (Some (VInt 1)) 0 3 None None true.
Definition s_descriptor : ColumnDescriptor.t :=
  ColumnDescriptor.mk "s" FEATURES CATEGORICAL Ordinal 3
    None None (Some (VStr "a")) 0 2 None None true.

(** A dropper of column ["s"], one of every column of [mixed_frame],
    and one of a column the frame lacks. *)
Definition s_dropper : ColumnDropper.t := ColumnDropper.__init__ (Name "s").
Definition all_dropper : ColumnDropper.t := ColumnDropper.__init__ (Names ["id"; "s"]).

(** A selector of ["s"] then ["id"]. *)
Definition s_id_selector : ColumnSelector.t := ColumnSelector.__init__ (Names ["s"; "id"]).

(** A selector of the datetime columns. *)
Definition datetime_selector : PandasTypeSelector.t :=
  PandasTypeSelector.__init__ [SelClass (np.Concrete np.datetime64)] [].

(** The columns of [mixed_frame] and of [retyped_frame]. *)
Definition id_column : Series.t :=
  Series.mk "id" (NpDtype np.int64) [Some (VInt 3); Some (VInt 1); Some (VInt 2)].
Definition s_column : Series.t :=
  Series.mk "s" (NpDtype np.object_) [Some (VStr "a"); Some (VStr "b"); Some (VStr "a")].
Definition id_float_column : Series.t :=
  Series.mk "id" (NpDtype np.float64) [Some (VFloat 3); Some (VFloat 1); Some (VFloat 2)].

(** Arrays of two and of three columns. *)
Definition array_2x2 : pyobj := PyNdarray (2, 2)%nat [VInt 1; VInt 2; VInt 3; VInt 4].
Definition array_1x2 : pyobj := PyNdarray (1, 2)%nat [VInt 5; VInt 6].
Definition array_1x3 : pyobj := PyNdarray (1, 3)%nat [VInt 5; VInt 6; VInt 7].

End Samples.

(* ===================================================================== *)
(** * Type inference *)
(* ===================================================================== *)



Lemma from_nptype_total (d : dtype) :
  (∃ v, from_nptype d = Ok v)
  ∨ from_nptype d = Raise (UnsupportedType d)
  ∨ from_nptype d = Raise (exn TypeError cannot_interpret_dtype).
Proof.
  destruct d as [t | categories ordered | e]; [destruct t | |];
    vm_compute; eauto.
Qed.

Example from_nptype_timedelta64 : from_nptype (NpDtype np.timedelta64) = Ok INTERGER.
Proof. reflexivity. Qed.

Example from_nptype_complex128 :
  from_nptype (NpDtype np.complex128) = Raise (UnsupportedType (NpDtype np.complex128)).
Proof. reflexivity. Qed.

Example from_nptype_categorical :
  from_nptype (CategoricalDtype [VInt 1; VInt 2] false) = Ok CATEGORICAL.
Proof. reflexivity. Qed.

(* ===================================================================== *)
(** * Column descriptors *)
(* ===================================================================== *)

Lemma validator_returns_values (v d : ColumnDescriptor.t) :
  ColumnDescriptor.imputation_scheme_validator v = Ok d → d = v.
Proof.
  unfold ColumnDescriptor.imputation_scheme_validator.
  repeat (case_bool_decide || case_match); simpl; congruence.
Qed.

Lemma new_returns_values (v d : ColumnDescriptor.t) :
  ColumnDescriptor.new v = Ok d → d = v.
Proof.
  unfold ColumnDescriptor.new. case_match; [discriminate |].
  apply validator_returns_values.
Qed.

(** A profiling-time descriptor has no imputation configured, which
    every dtype accepts. *)
Lemma new_without_imputation (v : ColumnDescriptor.t) :
  (0 ≤ ColumnDescriptor.null_count v)%Z →
  ColumnDescriptor.imputation_scheme v = None →
  ColumnDescriptor.new v = Ok v.
Proof.
  intros Hn Hs. unfold ColumnDescriptor.new.
  destruct (Z.ltb_spec (ColumnDescriptor.null_count v) 0); [lia |].
  unfold ColumnDescriptor.imputation_scheme_validator. rewrite Hs.
  repeat case_bool_decide; simpl; try reflexivity; congruence.
Qed.

(** Whatever the role of the column, the check on a single distinct
    value stops at the lookup of [FeatureType.TARGET]. *)
Lemma constant_check_one_unique colname column_type feature_type :
  ColumnDescriptor.constant_check colname column_type 1 feature_type
  = Raise (exn AttributeError (no_attribute "FeatureType" "TARGET")).
Proof. reflexivity. Qed.

Lemma constant_check_other colname column_type n feature_type :
  n ≠ 1%Z →
  ColumnDescriptor.constant_check colname column_type n feature_type = Ok feature_type.
Proof.
  intros Hn. unfold ColumnDescriptor.constant_check.
  destruct (Z.eqb_spec n 1); [contradiction | reflexivity].
Qed.

Lemma bind_Raise {A B} (m : result A) (k : A → result B) e :
  m ≫= k = Raise e → m = Raise e ∨ ∃ a, m = Ok a ∧ k a = Raise e.
Proof. destruct m; simpl; naive_solver. Qed.

Lemma bind_Ok {A B} (m : result A) (k : A → result B) b :
  m ≫= k = Ok b → ∃ a, m = Ok a ∧ k a = Ok b.
Proof. destruct m; simpl; naive_solver. Qed.

Lemma for_each_Raise {A B} (f : A → result B) xs e :
  for_each f xs = Raise e → ∃ x, In x xs ∧ f x = Raise e.
Proof.
  induction xs as [| x xs IH]; simpl; [discriminate |].
  destruct (f x) eqn:Hx; simpl.
  - destruct (for_each f xs); simpl; [discriminate |].
    intros [= <-]. destruct IH as (y & ? & ?); eauto.
  - intros [= <-]. eauto.
Qed.

Lemma from_nptype_Raise d e :
  from_nptype d = Raise e →
  e = UnsupportedType d ∨ e = exn TypeError cannot_interpret_dtype.
Proof.
  destruct d as [t | |]; [destruct t | |]; vm_compute; intros H;
    try discriminate H; injection H as <-; auto.
Qed.

(** The storage-type branch never raises the invalid-target error. *)
Lemma classify_Raise col e c :
  ColumnDescriptor.classify col = Raise e → exn_msg e ≠ Target_one_unique_value c.
Proof.
  unfold ColumnDescriptor.classify, Series.mean, Series.median, Series.item,
    Series.getitem_0.
  intros H.
  repeat match type of H with
  | (if ?b then _ else _) = _ => destruct b
  | _ ≫= _ = Raise _ => apply bind_Raise in H; destruct H as [H | (? & ? & H)]
  | match ?x with _ => _ end = _ => destruct x eqn:?
  end; simpl in *; try discriminate; try (inversion H; subst; simpl; discriminate).
  all: try (apply from_nptype_Raise in H as [-> | ->]; simpl; discriminate).
  all: apply for_each_Raise in H; destruct H as (v & _ & H);
    destruct v; simpl in H; inversion H; subst; simpl; discriminate.
Qed.

(** No column with exactly one distinct value gets a descriptor, and the
    failure is never the invalid-target error. *)
Lemma build_one_unique_fails dataset colname target_columns col :
  DataFrame.getitem dataset colname = Ok (DataFrame.ItemSeries col) →
  Series.nunique col = 1%Z →
  ∃ e, ColumnDescriptor.build_from_dataset dataset colname target_columns = Raise e
       ∧ e ≠ InvalidTarget colname.
Proof.
  intros Hget Hone. unfold ColumnDescriptor.build_from_dataset.
  rewrite Hget. simpl.
  destruct (ColumnDescriptor.classify col) as [p | e] eqn:Hp; simpl.
  - rewrite Hone, constant_check_one_unique. simpl. eexists; split; [reflexivity |].
    discriminate.
  - exists e. split; [reflexivity |].
    intros ->. by apply (classify_Raise _ _ colname) in Hp.
Qed.

(** C1. On a frame whose integer column ["x"] holds one value three
    times, [ColumnDescriptor.build_from_dataset] raises [AttributeError]
    from the lookup of [FeatureType.TARGET], both when ["x"] is a feature
    and when it is a target: it neither returns a [constant] descriptor
    nor raises the invalid-target error. *)
Theorem build_constant_column_raises_AttributeError :
  ColumnDescriptor.build_from_dataset Samples.constant_frame "x" []
    = Raise (exn AttributeError (no_attribute "FeatureType" "TARGET"))
  ∧ ColumnDescriptor.build_from_dataset Samples.constant_frame "x" ["x"]
    = Raise (exn AttributeError (no_attribute "FeatureType" "TARGET")).
Proof. split; vm_compute; reflexivity. Qed.

(** What a returned column descriptor is made of. *)
Lemma build_Ok dataset colname target_columns d :
  ColumnDescriptor.build_from_dataset dataset colname target_columns = Ok d →
  ∃ col p,
    DataFrame.getitem dataset colname = Ok (DataFrame.ItemSeries col)
    ∧ ColumnDescriptor.classify col = Ok p
    ∧ Series.nunique col ≠ 1%Z
    ∧ d = ColumnDescriptor.mk colname
            (if bool_decide (colname ∈ target_columns) then TARGET else FEATURES)
            (ColumnDescriptor.p_dtypes p) (ColumnDescriptor.p_feature_type p)
            (Series.count col)
            (ColumnDescriptor.p_mean p) (ColumnDescriptor.p_median p)
            (ColumnDescriptor.p_mode p)
            (Series.isna_sum col) (Series.nunique col) None None true.
Proof.
  unfold ColumnDescriptor.build_from_dataset. intros H.
  apply bind_Ok in H as (item & Hget & H).
  destruct item as [col | sub]; [| discriminate].
  apply bind_Ok in H as (p & Hp & H).
  apply bind_Ok in H as (ft & Hft & H).
  exists col, p. split; [done |]. split; [done |].
  destruct (decide (Series.nunique col = 1%Z)) as [Hone | Hne].
  - rewrite Hone, constant_check_one_unique in Hft. discriminate.
  - rewrite constant_check_other in Hft by done. injection Hft as <-.
    split; [done |]. by apply new_returns_values in H.
Qed.


(** X8. The numeric half of the classification: a returned descriptor of a
    column pandas counts as numeric is Continuous, with mean, median and
    mode present. *)
Lemma build_numeric_column dataset colname target_columns col d :
  DataFrame.getitem dataset colname = Ok (DataFrame.ItemSeries col) →
  is_numeric_dtype col = true →
  ColumnDescriptor.build_from_dataset dataset colname target_columns = Ok d →
  ColumnDescriptor.feature_type d = Continuous
  ∧ is_Some (ColumnDescriptor.mean d)
  ∧ is_Some (ColumnDescriptor.median d)
  ∧ is_Some (ColumnDescriptor.mode d).
Proof.
  intros Hget Hnum H.
  apply build_Ok in H as (col' & p & Hget' & Hp & _ & ->).
  rewrite Hget in Hget'. injection Hget' as <-.
  unfold ColumnDescriptor.classify in Hp. rewrite Hnum in Hp.
  apply bind_Ok in Hp as (mean0 & _ & Hp).
  apply bind_Ok in Hp as (mean & _ & Hp).
  apply bind_Ok in Hp as (median0 & _ & Hp).
  apply bind_Ok in Hp as (median & _ & Hp).
  apply bind_Ok in Hp as (mode & _ & Hp).
  apply bind_Ok in Hp as (dtypes & _ & Hp).
  injection Hp as <-. simpl. eauto.
Qed.

(** X9. The text half: a returned descriptor of a string-typed column is
    Ordinal, with a mode and neither mean nor median. *)
Lemma build_string_column dataset colname target_columns col d :
  DataFrame.getitem dataset colname = Ok (DataFrame.ItemSeries col) →
  is_numeric_dtype col = false →
  is_string_dtype col || is_bool_dtype col = true →
  ColumnDescriptor.build_from_dataset dataset colname target_columns = Ok d →
  ColumnDescriptor.feature_type d = Ordinal
  ∧ is_Some (ColumnDescriptor.mode d)
  ∧ ColumnDescriptor.mean d = None
  ∧ ColumnDescriptor.median d = None.
Proof.
  intros Hget Hnum Hstr H.
  apply build_Ok in H as (col' & p & Hget' & Hp & _ & ->).
  rewrite Hget in Hget'. injection Hget' as <-.
  unfold ColumnDescriptor.classify in Hp. rewrite Hnum, Hstr in Hp.
  apply bind_Ok in Hp as (mode & _ & Hp).
  apply bind_Ok in Hp as (dtypes & _ & Hp).
  injection Hp as <-. simpl. eauto.
Qed.

(** Boolean storage is numeric for pandas, so the first branch takes
    every boolean column and the [is_bool_dtype] test of the second is
    never reached for one. *)
Lemma bool_storage_is_numeric col :
  Series.dtype col = NpDtype np.bool_ → is_numeric_dtype col = true.
Proof. unfold is_numeric_dtype. intros ->. reflexivity. Qed.

(** C2. On a frame whose boolean column ["flag"] holds True, False,
    True, [ColumnDescriptor.build_from_dataset] returns a descriptor with
    feature_type Continuous and with mean and median set, not an Ordinal
    one with mean and median unset. *)
Theorem build_bool_column_is_Continuous :
  ColumnDescriptor.build_from_dataset Samples.flags_frame "flag" []
  = Ok (ColumnDescriptor.mk "flag" FEATURES BOOLEAN Continuous 3
          (Some (fin (2 # 3))) (Some (fin 1)) (Some (VBool true))
          0 2 None None true).
Proof. vm_compute. reflexivity. Qed.

(* ===================================================================== *)
(** * Dataset descriptors *)
(* ===================================================================== *)

Lemma for_each_Ok {A B} (f : A → result B) xs ys :
  for_each f xs = Ok ys → Forall2 (fun x y => f x = Ok y) xs ys.
Proof.
  revert ys. induction xs as [| x xs IH]; simpl; intros ys H.
  - injection H as <-. constructor.
  - apply bind_Ok in H as (y & Hy & H).
    apply bind_Ok in H as (ys' & Hys & H).
    injection H as <-. constructor; auto.
Qed.

Lemma dataset_build_Ok dataset target_columns d :
  DatasetDescriptor.build_from_dataset dataset target_columns = Ok d →
  Forall2 (fun column desc =>
             ColumnDescriptor.build_from_dataset dataset column target_columns = Ok desc)
          (DataFrame.columns dataset) (DatasetDescriptor.cloumns_info d)
  ∧ DatasetDescriptor.duplicate_columns d
    = DataFrame.select_mask (DataFrame.columns dataset)
                            (DataFrame.columns_duplicated dataset).
Proof.
  unfold DatasetDescriptor.build_from_dataset. simpl. intros H.
  apply bind_Ok in H as (rows & Hrows & H).
  apply bind_Ok in H as (infos & Hinfos & H).
  unfold DatasetDescriptor.new in H. simpl in H.
  case_match; [discriminate |]. injection H as <-. simpl.
  split; [by apply for_each_Ok | done].
Qed.



(** ** Repeated column names *)

Lemma getitem_ItemSeries df key col :
  DataFrame.getitem df key = Ok (DataFrame.ItemSeries col) →
  List.filter (fun s => String.eqb (Series.name s) key) (DataFrame.data df) = [col].
Proof.
  unfold DataFrame.getitem.
  destruct (List.filter _ _) as [| s [| s' ss]]; intros H; try discriminate.
  by injection H as ->.
Qed.

Lemma filter_name_nonempty (data : list Series.t) c :
  c ∈ map Series.name data →
  (0 < length (List.filter (fun s => String.eqb (Series.name s) c) data))%nat.
Proof.
  induction data as [| s data IH]; simpl; intros Hin.
  - by apply elem_of_nil in Hin.
  - destruct (String.eqb_spec (Series.name s) c) as [Heq | Hne]; simpl; [lia |].
    apply elem_of_cons in Hin as [Heq | Hin]; [by subst | by apply IH].
Qed.

(** When every name selects exactly one column, no name repeats. *)
Lemma NoDup_names (data : list Series.t) :
  (∀ c, c ∈ map Series.name data →
        length (List.filter (fun s => String.eqb (Series.name s) c) data) = 1%nat) →
  NoDup (map Series.name data).
Proof.
  induction data as [| s data IH]; simpl; intros Hone; [constructor |].
  apply NoDup_cons. split.
  - intros Hin. pose proof (filter_name_nonempty _ _ Hin) as Hpos.
    specialize (Hone (Series.name s) (list_elem_of_here _ _)).
    rewrite String.eqb_refl in Hone. simpl in Hone. lia.
  - apply IH. intros c Hin.
    pose proof (filter_name_nonempty _ _ Hin) as Hpos.
    specialize (Hone c ltac:(by apply list_elem_of_further)).
    destruct (String.eqb (Series.name s) c); simpl in Hone; lia.
Qed.

Lemma duplicated_mask_NoDup (seen xs : list string) :
  NoDup (seen ++ xs) →
  DataFrame.select_mask xs (DataFrame.duplicated_mask String.eqb seen xs) = [].
Proof.
  revert seen. induction xs as [| x xs IH]; intros seen Hnd; simpl; [done |].
  assert (Hx : existsb (String.eqb x) seen = false).
  { apply not_true_is_false. intros Hex.
    apply existsb_exists in Hex as (y & Hy & Heq).
    apply String.eqb_eq in Heq as <-.
    apply NoDup_app in Hnd as (_ & Hdisj & _).
    apply (Hdisj x); [by apply list_elem_of_In | apply list_elem_of_here]. }
  rewrite Hx. apply IH. by rewrite <- app_assoc.
Qed.

Lemma Forall2_In_left {A B} (P : A → B → Prop) xs ys x :
  Forall2 P xs ys → In x xs → ∃ y, In y ys ∧ P x y.
Proof.
  induction 1 as [| x' y' xs ys Hxy _ IH]; simpl; [done |].
  intros [<- | Hin]; [eauto |].
  destruct (IH Hin) as (y & ? & ?); eauto.
Qed.

(** X11. A frame that gets a descriptor has no repeated column name, so the
    [duplicate_columns] of a returned descriptor is always empty. *)
Lemma dataset_build_duplicate_columns_nil dataset target_columns d :
  DatasetDescriptor.build_from_dataset dataset target_columns = Ok d →
  NoDup (DataFrame.columns dataset) ∧ DatasetDescriptor.duplicate_columns d = [].
Proof.
  intros H. apply dataset_build_Ok in H as [Hall Hdup].
  assert (Hnd : NoDup (DataFrame.columns dataset)).
  { apply NoDup_names. intros c Hin.
    apply list_elem_of_In in Hin.
    destruct (Forall2_In_left _ _ _ _ Hall Hin) as (desc & _ & Hdesc).
    apply build_Ok in Hdesc as (col & p & Hget & _).
    by rewrite (getitem_ItemSeries _ _ _ Hget). }
  split; [done |]. rewrite Hdup. by apply duplicated_mask_NoDup.
Qed.

(** C4. On a frame with two columns both named ["x"], the repeated names
    are computed as [["x"]], but [DatasetDescriptor.build_from_dataset]
    then raises [ValueError]: [dataset["x"]] is a two-column frame, whose
    [count().item()] has two entries.  No descriptor is returned. *)
Theorem dataset_build_twice_x_raises :
  DataFrame.select_mask (DataFrame.columns Samples.twice_x_frame)
                        (DataFrame.columns_duplicated Samples.twice_x_frame) = ["x"]
  ∧ DatasetDescriptor.build_from_dataset Samples.twice_x_frame []
    = Raise (exn ValueError not_size_1).
Proof. split; vm_compute; reflexivity. Qed.

(* ===================================================================== *)
(** * Imputation configuration *)
(* ===================================================================== *)

(** C8. Constructing a [ColumnDescriptor] whose imputation configuration
    does not fit its dtype fails: [MODE] on an integer or float column,
    [MEAN] or [MEDIAN] on a categorical, boolean or date column, and
    [VALUE] with an [imputation_value] of the wrong runtime type.  The
    model validator raises the invalid-configuration error, and so does
    the constructor once the field constraints hold. *)
Theorem incompatible_imputation_rejected (v : ColumnDescriptor.t) :
  incompatible (ColumnDescriptor.dtype v) (ColumnDescriptor.imputation_scheme v)
               (ColumnDescriptor.imputation_value v) →
  (∃ e, ColumnDescriptor.imputation_scheme_validator v = Raise e
        ∧ is_InvalidImputationConfig e)
  ∧ (∃ e, ColumnDescriptor.new v = Raise e
          ∧ ((0 ≤ ColumnDescriptor.null_count v)%Z → is_InvalidImputationConfig e)).
Proof.
  intros Hbad.
  assert (Hval : ∃ e, ColumnDescriptor.imputation_scheme_validator v = Raise e
                      ∧ is_InvalidImputationConfig e).
  { unfold ColumnDescriptor.imputation_scheme_validator, is_InvalidImputationConfig.
    destruct v as [n ct d ft c me md mo nc u scheme value sel]. simpl in *.
    destruct Hbad as [[Hd ->] | [[Hd Hs] | [-> Hv]]].
    - members Hd; simpl; (eexists; split; [reflexivity | simpl; eauto 6]).
    - members Hd; members Hs; simpl; (eexists; split; [reflexivity | simpl; eauto 6]).
    - destruct d; simpl in Hv; rewrite ?Hv; simpl;
        (eexists; split; [reflexivity | simpl; eauto 6]). }
  split; [done |].
  destruct Hval as (e & He & Hinv). unfold ColumnDescriptor.new.
  destruct (Z.ltb_spec (ColumnDescriptor.null_count v) 0).
  - eexists. split; [reflexivity | lia].
  - exists e. by split.
Qed.

Lemma incompatible_imputation_rejected_witness :
  let v := ColumnDescriptor.mk "age" FEATURES INTERGER Continuous 3
             (Some (fin 30)) (Some (fin 30)) (Some (VInt 30)) 0 3
             (Some MODE) None true in
  incompatible (ColumnDescriptor.dtype v) (ColumnDescriptor.imputation_scheme v)
               (ColumnDescriptor.imputation_value v)
  ∧ ((∃ e, ColumnDescriptor.imputation_scheme_validator v = Raise e
           ∧ is_InvalidImputationConfig e)
     ∧ (∃ e, ColumnDescriptor.new v = Raise e
             ∧ ((0 ≤ ColumnDescriptor.null_count v)%Z → is_InvalidImputationConfig e))).
Proof.
  intros v.
  assert (H : incompatible (ColumnDescriptor.dtype v) (ColumnDescriptor.imputation_scheme v)
                           (ColumnDescriptor.imputation_value v)).
  { left. split; [left | reflexivity]. }
  split; [exact H | exact (incompatible_imputation_rejected v H)].
Defined.

Example value_scheme_on_boolean_needs_bool :
  ColumnDescriptor.new
    (ColumnDescriptor.mk "flag" FEATURES BOOLEAN Ordinal 3 None None (Some (VBool true))
       0 2 (Some VALUE) (Some (VInt 1)) true)
  = Raise (exn ValueError (value_not_valid (Some (VInt 1)) "BOOLEAN")).
Proof. reflexivity. Qed.

(* ===================================================================== *)
(** * Transformers: input checks *)
(* ===================================================================== *)

(** [check_X_for_type] raises exactly on the two defects, each with its
    own failure. *)
Lemma check_X_for_type_defect X e :
  input_defect X e ↔ check_X_for_type X = Raise e.
Proof.
  unfold input_defect, check_X_for_type, WrongInputType, EmptyInput. split.
  - intros [[Hnot ->] | [(df & -> & Hempty) ->]].
    + destruct X; [by destruct (Hnot df) | done | done].
    + by rewrite Hempty.
  - destruct X as [df | |]; [| intros [= <-]; left; split; [intros; discriminate | done] ..].
    destruct (DataFrame.empty df) eqn:He; [| discriminate].
    intros [= <-]. right. eauto.
Qed.

Lemma check_X_for_type_Ok df :
  DataFrame.empty df = false → check_X_for_type (PyDataFrame df) = Ok tt.
Proof. intros H. unfold check_X_for_type. by rewrite H. Qed.

(** C6, as the code has it.  An input that is not a DataFrame fails with
    the wrong-input-type error, and an empty DataFrame with the
    empty-input error, in [ColumnDropper.fit], [PandasTypeSelector.fit]
    and [ColumnSelector.transform] on every instance, in
    [ColumnSelector.fit] when the requested column list is not empty, and
    in [ColumnDropper.transform] once [feature_names_] is set.
    [IdentityTransformer] with its validation flag off raises neither
    failure, in [fit] or in [transform]. *)
Theorem input_defect_rejected (X : pyobj) (e : exception) :
  input_defect X e →
  (∀ self, fails_with (ColumnDropper.fit X) self e)
  ∧ (∀ self, fails_with (PandasTypeSelector.fit X) self e)
  ∧ (∀ self, fails_with (ColumnSelector.transform X) self e)
  ∧ (∀ self, as_list (ColumnSelector.columns self) ≠ [] →
             fails_with (ColumnSelector.fit X) self e)
  ∧ (∀ self, is_Some (ColumnDropper.feature_names_ self) →
             fails_with (ColumnDropper.transform X) self e)
  ∧ (∀ (sk : sklearn_utils) self, IdentityTransformer.check_X self = false →
       ¬ fails_with (IdentityTransformer.fit X) self e
       ∧ ¬ fails_with (IdentityTransformer.transform X) self e).
Proof.
  intros H.
  assert (Hid : ∀ (sk : sklearn_utils) self, IdentityTransformer.check_X self = false →
            ¬ fails_with (IdentityTransformer.fit X) self e
            ∧ ¬ fails_with (IdentityTransformer.transform X) self e).
  { intros sk self Hflag.
    assert (He : e = WrongInputType ∨ e = EmptyInput) by (destruct H as [[_ ->] | [_ ->]]; auto).
    unfold fails_with, IdentityTransformer.fit, IdentityTransformer.transform.
    run_method. rewrite Hflag.
    destruct X as [df | shape data | type_name];
      destruct (IdentityTransformer.n_features_in_ self) as [n |]; simpl;
      try match goal with |- context [negb ?b] => destruct b end; simpl;
      split; intros Heq; destruct He; subst; discriminate. }
  apply check_X_for_type_defect in H.
  unfold fails_with. split_and!; [intros self .. | exact Hid].
  - unfold ColumnDropper.fit. run_method. by rewrite H.
  - unfold PandasTypeSelector.fit. run_method. by rewrite H.
  - unfold ColumnSelector.transform. run_method. by rewrite H.
  - intros Hne. unfold ColumnSelector.fit. run_method.
    destruct (as_list (ColumnSelector.columns self)); [done |]. simpl. by rewrite H.
  - intros [names Hnames]. unfold ColumnDropper.transform. run_method.
    rewrite Hnames. simpl. by rewrite H.
Qed.

Lemma input_defect_rejected_witness :
  input_defect (PyOther "NoneType") WrongInputType
  ∧ ((∀ self, fails_with (ColumnDropper.fit (PyOther "NoneType")) self WrongInputType)
     ∧ (∀ self, fails_with (PandasTypeSelector.fit (PyOther "NoneType")) self WrongInputType)
     ∧ (∀ self, fails_with (ColumnSelector.transform (PyOther "NoneType")) self
                  WrongInputType)
     ∧ (∀ self, as_list (ColumnSelector.columns self) ≠ [] →
                fails_with (ColumnSelector.fit (PyOther "NoneType")) self WrongInputType)
     ∧ (∀ self, is_Some (ColumnDropper.feature_names_ self) →
                fails_with (ColumnDropper.transform (PyOther "NoneType")) self
                  WrongInputType)
     ∧ (∀ (sk : sklearn_utils) self, IdentityTransformer.check_X self = false →
          ¬ fails_with (IdentityTransformer.fit (PyOther "NoneType")) self WrongInputType
          ∧ ¬ fails_with (IdentityTransformer.transform (PyOther "NoneType")) self
                WrongInputType)).
Proof.
  assert (H : input_defect (PyOther "NoneType") WrongInputType).
  { left. split; [intros df; discriminate | reflexivity]. }
  split; [exact H | exact (input_defect_rejected _ _ H)].
Defined.

Lemma empty_frame_is_rejected :
  let X := PyDataFrame (DataFrame.mk [] [Series.mk "a" (NpDtype np.int64) []]) in
  fails_with (ColumnDropper.fit X) (ColumnDropper.__init__ (Name "a")) EmptyInput
  ∧ fails_with (ColumnSelector.fit X) (ColumnSelector.__init__ (Name "a")) EmptyInput.
Proof. split; reflexivity. Qed.

(** Counterexample to C6 as stated: [IdentityTransformer] (validation
    flag off) never makes the DataFrame check.  Handed [None], [fit]
    raises [AttributeError] on [X.shape], not the wrong-input-type error;
    handed an array, [fit] returns, also when the array has no rows. *)
Lemma identity_fit_makes_no_input_check :
  fails_with (@IdentityTransformer.fit Samples.lenient (PyOther "NoneType"))
             (IdentityTransformer.__init__ false)
             (exn AttributeError (no_attribute "NoneType" "shape"))
  ∧ ¬ fails_with (@IdentityTransformer.fit Samples.lenient (PyOther "NoneType"))
                 (IdentityTransformer.__init__ false) WrongInputType
  ∧ returns (@IdentityTransformer.fit Samples.lenient (PyNdarray (2, 1) [VInt 1; VInt 2]))
            (IdentityTransformer.__init__ false) tt
  ∧ returns (@IdentityTransformer.fit Samples.lenient (PyNdarray (0, 1) []))
            (IdentityTransformer.__init__ false) tt.
Proof.
  unfold fails_with, returns. repeat split; try reflexivity.
  vm_compute. discriminate.
Qed.

(** With the flag off the stand-in for [check_array] plays no part. *)
Lemma identity_fit_unchecked `{sklearn_utils} X self :
  IdentityTransformer.check_X self = false →
  fst (IdentityTransformer.fit X self) = shape ← py_shape X; Ok tt.
Proof.
  intros Hflag. unfold IdentityTransformer.fit. run_method. rewrite Hflag.
  by destruct (py_shape X).
Qed.

(* ===================================================================== *)
(** * Transformers: transform before fit *)
(* ===================================================================== *)

Lemma ColumnDropper_transform_unfitted X columns :
  fails_with (ColumnDropper.transform X) (ColumnDropper.__init__ columns) NotFitted.
Proof. reflexivity. Qed.

Lemma PandasTypeSelector_transform_unfitted X include exclude :
  fails_with (PandasTypeSelector.transform X)
             (PandasTypeSelector.__init__ include exclude) NotFitted.
Proof. reflexivity. Qed.

Lemma IdentityTransformer_transform_unfitted `{sklearn_utils} X flag :
  (flag = true → ∃ X', check_array X = Ok X') →
  fails_with (IdentityTransformer.transform X) (IdentityTransformer.__init__ flag) NotFitted.
Proof.
  intros Hcheck. unfold fails_with, IdentityTransformer.transform. run_method.
  destruct flag; [| reflexivity].
  destruct (Hcheck eq_refl) as (X' & ->). reflexivity.
Qed.

(** C7. On a frame with columns ["id"] and ["s"], [transform] of a
    [ColumnSelector] that was never fitted does not raise the not-fitted
    error: constructed with [["id"]] it raises [AttributeError] on
    [self.columns_], and constructed with the empty list it returns the
    frame.  [ColumnSelector.transform] has no [check_is_fitted] call,
    which the other three transformers have. *)
Theorem ColumnSelector_transform_unfitted :
  fails_with (ColumnSelector.transform (PyDataFrame Samples.mixed_frame))
             (ColumnSelector.__init__ (Names ["id"]))
             (exn AttributeError (no_attribute "ColumnSelector" "columns_"))
  ∧ returns (ColumnSelector.transform (PyDataFrame Samples.mixed_frame))
            (ColumnSelector.__init__ (Names []))
            (PyDataFrame Samples.mixed_frame).
Proof. split; reflexivity. Qed.

(* ===================================================================== *)
(** * ColumnDropper with nothing to drop *)
(* ===================================================================== *)

Lemma check_column_names_nil X cols :
  py_columns X = Ok cols → check_column_names [] X = Ok tt.
Proof.
  intros Hcols. unfold check_column_names. rewrite Hcols.
  unfold mbind, result_bind.
  by rewrite list_to_set_nil, empty_difference_L, size_empty.
Qed.

Lemma filter_not_in_nil (data : list Series.t) :
  List.filter (fun s => negb (bool_decide (Series.name s ∈ @nil string))) data = data.
Proof. induction data as [| s data IH]; simpl in *; [done | by f_equal]. Qed.

Lemma drop_nil df : DataFrame.drop df [] = Ok df.
Proof. unfold DataFrame.drop. simpl. rewrite filter_not_in_nil. by destruct df. Qed.

Lemma py_drop_nil df : py_drop (PyDataFrame df) [] = Ok (PyDataFrame df).
Proof. unfold py_drop. by rewrite drop_nil. Qed.

Lemma nonempty_has_columns df :
  DataFrame.empty df = false → Nat.eqb (length (DataFrame.columns df)) 0 = false.
Proof.
  unfold DataFrame.empty, DataFrame.shape, DataFrame.columns. simpl.
  rewrite length_map. intros H. by apply orb_false_elim in H as [_ H].
Qed.

Opaque py_drop check_column_names.

(** The instance after fitting with the empty drop-list: nothing to
    drop, every column retained. *)
Lemma ColumnDropper_fit_nil df :
  DataFrame.empty df = false →
  ColumnDropper.fit (PyDataFrame df) (ColumnDropper.__init__ (Names []))
  = (Ok tt, ColumnDropper.mk (Names []) (Some []) (Some (DataFrame.columns df))).
Proof.
  intros Hne. unfold ColumnDropper.fit, ColumnDropper._check_column_names,
    ColumnDropper._check_column_length. run_method.
  rewrite Hne. simpl.
  rewrite (check_column_names_nil (PyDataFrame df) (DataFrame.columns df)) by done.
  rewrite py_drop_nil. simpl.
  by rewrite nonempty_has_columns.
Qed.

Transparent py_drop check_column_names.

(** C10. A [ColumnDropper] constructed with the empty drop-list fits on
    every non-empty DataFrame, where [ColumnSelector] with the empty list
    fails with the empty-column-list error, and its [transform] then
    returns every non-empty DataFrame as it is. *)
Theorem ColumnDropper_empty_list_is_identity (df df' : DataFrame.t) :
  DataFrame.empty df = false →
  DataFrame.empty df' = false →
  returns (ColumnDropper.fit (PyDataFrame df)) (ColumnDropper.__init__ (Names [])) tt
  ∧ returns (ColumnDropper.transform (PyDataFrame df'))
            (snd (ColumnDropper.fit (PyDataFrame df) (ColumnDropper.__init__ (Names []))))
            (PyDataFrame df')
  ∧ fails_with (ColumnSelector.fit (PyDataFrame df)) (ColumnSelector.__init__ (Names []))
               EmptyColumnList.
Proof.
  intros Hne Hne'. unfold returns, fails_with.
  rewrite ColumnDropper_fit_nil by done. simpl.
  split; [done |]. split; [| reflexivity].
  unfold ColumnDropper.transform. run_method. by rewrite Hne'.
Qed.

Lemma ColumnDropper_empty_list_is_identity_witness :
  DataFrame.empty Samples.mixed_frame = false
  ∧ DataFrame.empty Samples.retyped_frame = false
  ∧ (returns (ColumnDropper.fit (PyDataFrame Samples.mixed_frame))
             (ColumnDropper.__init__ (Names [])) tt
     ∧ returns (ColumnDropper.transform (PyDataFrame Samples.retyped_frame))
               (snd (ColumnDropper.fit (PyDataFrame Samples.mixed_frame)
                                       (ColumnDropper.__init__ (Names []))))
               (PyDataFrame Samples.retyped_frame)
     ∧ fails_with (ColumnSelector.fit (PyDataFrame Samples.mixed_frame))
                  (ColumnSelector.__init__ (Names [])) EmptyColumnList).
Proof.
  split; [reflexivity |]. split; [reflexivity |].
  apply (ColumnDropper_empty_list_is_identity Samples.mixed_frame Samples.retyped_frame);
    reflexivity.
Defined.

(* ===================================================================== *)
(** * PandasTypeSelector: storage types at fit and at transform time *)
(* ===================================================================== *)

Lemma dtypes_labels df : map fst (DataFrame.dtypes df) = DataFrame.columns df.
Proof. unfold DataFrame.dtypes, DataFrame.columns. by rewrite map_map. Qed.

(** Where the labels agree, a column stored differently shows in the
    comparison. *)
Lemma any_differ (a b : list (string * dtype)) c d1 d2 :
  map fst a = map fst b →
  dtype_of a c = Some d1 →
  dtype_of b c = Some d2 →
  dtype_eqb d1 d2 = false →
  any (map (fun p => negb (dtype_eqb (snd (fst p)) (snd (snd p)))) (combine a b)) = true.
Proof.
  revert b. induction a as [| [ca da] a IH]; intros [| [cb db] b]; simpl; try done.
  intros [= <- Hlabels].
  destruct (String.eqb ca c).
  - intros [= ->] [= ->] Hne. unfold any. simpl. by rewrite Hne.
  - intros Ha Hb Hne. unfold any in *. simpl.
    rewrite (IH b) by done. apply orb_true_r.
Qed.

(** A successful [fit] has recorded the frame's storage types. *)
Lemma PandasTypeSelector_fit_Ok F self0 self :
  PandasTypeSelector.fit (PyDataFrame F) self0 = (Ok tt, self) →
  PandasTypeSelector.X_dtypes_ self = Some (DataFrame.dtypes F)
  ∧ is_Some (PandasTypeSelector.feature_names_ self).
Proof.
  unfold PandasTypeSelector.fit. run_method.
  destruct (DataFrame.empty F); simpl; [intros [= ?] |].
  destruct (DataFrame.select_dtypes F _ _) as [sel | e]; simpl; [| intros [= ?]].
  destruct (length (DataFrame.columns sel) =? 0)%nat; intros [= <-]; simpl; eauto.
Qed.

(** The guarded comparison always re-raises; what it re-raises from
    depends on the labels. *)
Lemma check_dtypes_differ F X c d1 d2 :
  dtype_of (DataFrame.dtypes F) c = Some d1 →
  dtype_of (DataFrame.dtypes X) c = Some d2 →
  dtype_eqb d1 d2 = false →
  ∃ inner,
    PandasTypeSelector.check_dtypes (Some (DataFrame.dtypes F)) (PyDataFrame X)
    = Raise (exn_from ValueError columns_not_equal inner)
    ∧ (DataFrame.columns X = DataFrame.columns F →
       inner = exn ValueError (dtypes_not_equal (DataFrame.dtypes F) (DataFrame.dtypes X))).
Proof.
  intros H1 H2 Hne. unfold PandasTypeSelector.check_dtypes, dtypes_ne. simpl.
  rewrite !dtypes_labels. case_bool_decide as Hlabels; simpl.
  - rewrite (any_differ _ _ c d1 d2) by (rewrite ?dtypes_labels; done). simpl.
    eexists. split; [reflexivity | done].
  - eexists. split; [reflexivity |]. intros Heq. by rewrite Heq in Hlabels.
Qed.

(** C9, as the code has it.  After a successful [fit] on frame [F],
    [transform] on a frame [X] in which a selected column [c] is stored
    with another type than the one recorded fails with the
    schema-mismatch error; and when [X] has the column labels of [F], in
    the same order, that failure carries both type sets, on its cause. *)
Theorem retyped_column_is_schema_mismatch
    (self0 self : PandasTypeSelector.t) (F X : DataFrame.t)
    (names : list string) (c : string) (d1 d2 : dtype) :
  PandasTypeSelector.fit (PyDataFrame F) self0 = (Ok tt, self) →
  PandasTypeSelector.feature_names_ self = Some names →
  c ∈ names →
  dtype_of (DataFrame.dtypes F) c = Some d1 →
  dtype_of (DataFrame.dtypes X) c = Some d2 →
  dtype_eqb d1 d2 = false →
  ∃ e, fails_with (PandasTypeSelector.transform (PyDataFrame X)) self e
       ∧ is_SchemaMismatch e
       ∧ (DataFrame.columns X = DataFrame.columns F →
          carries_type_sets e (DataFrame.dtypes F) (DataFrame.dtypes X)).
Proof.
  intros Hfit Hnames _ H1 H2 Hne.
  apply PandasTypeSelector_fit_Ok in Hfit as [Hdtypes _].
  destruct (check_dtypes_differ F X c d1 d2 H1 H2 Hne) as (inner & Hcheck & Hinner).
  exists (exn_from ValueError columns_not_equal inner).
  split; [| split].
  - unfold fails_with, PandasTypeSelector.transform. run_method.
    rewrite Hdtypes, Hnames. simpl. by rewrite Hcheck.
  - by split.
  - intros Hcols. rewrite (Hinner Hcols). unfold carries_type_sets. simpl. auto.
Qed.

Lemma retyped_column_is_schema_mismatch_witness :
  PandasTypeSelector.fit (PyDataFrame Samples.mixed_frame) Samples.number_selector
    = (Ok tt, Samples.fitted_number_selector)
  ∧ PandasTypeSelector.feature_names_ Samples.fitted_number_selector = Some ["id"]
  ∧ "id" ∈ ["id"]
  ∧ dtype_of (DataFrame.dtypes Samples.mixed_frame) "id" = Some (NpDtype np.int64)
  ∧ dtype_of (DataFrame.dtypes Samples.retyped_frame) "id" = Some (NpDtype np.float64)
  ∧ dtype_eqb (NpDtype np.int64) (NpDtype np.float64) = false
  ∧ DataFrame.columns Samples.retyped_frame = DataFrame.columns Samples.mixed_frame
  ∧ ∃ e, fails_with (PandasTypeSelector.transform (PyDataFrame Samples.retyped_frame))
                    Samples.fitted_number_selector e
         ∧ is_SchemaMismatch e
         ∧ (DataFrame.columns Samples.retyped_frame = DataFrame.columns Samples.mixed_frame →
            carries_type_sets e (DataFrame.dtypes Samples.mixed_frame)
                                (DataFrame.dtypes Samples.retyped_frame)).
Proof.
  repeat (split; [first [reflexivity | apply list_elem_of_here] |]).
  apply (retyped_column_is_schema_mismatch Samples.number_selector
           Samples.fitted_number_selector Samples.mixed_frame Samples.retyped_frame
           ["id"] "id" (NpDtype np.int64) (NpDtype np.float64));
    first [reflexivity | apply list_elem_of_here].
Defined.

(** Counterexample to C9 as stated.  The selector of numeric columns is
    fitted on a frame with columns ["id"] (int64) and ["s"]; [transform]
    is handed a frame in which ["id"] is float64 and a column ["extra"]
    was added.  The comparison of the two type Series raises on the
    labels, and the schema-mismatch failure re-raised from it carries
    neither type set. *)
Lemma type_sets_lost_when_labels_differ :
  PandasTypeSelector.fit (PyDataFrame Samples.mixed_frame) Samples.number_selector
    = (Ok tt, Samples.fitted_number_selector)
  ∧ PandasTypeSelector.feature_names_ Samples.fitted_number_selector = Some ["id"]
  ∧ dtype_of (DataFrame.dtypes Samples.mixed_frame) "id" = Some (NpDtype np.int64)
  ∧ dtype_of (DataFrame.dtypes Samples.widened_frame) "id" = Some (NpDtype np.float64)
  ∧ fails_with (PandasTypeSelector.transform (PyDataFrame Samples.widened_frame))
               Samples.fitted_number_selector
               (exn_from ValueError columns_not_equal
                  (exn ValueError not_identically_labeled))
  ∧ ¬ carries_type_sets
        (exn_from ValueError columns_not_equal (exn ValueError not_identically_labeled))
        (DataFrame.dtypes Samples.mixed_frame) (DataFrame.dtypes Samples.widened_frame).
Proof.
  repeat (split; [reflexivity |]).
  unfold carries_type_sets. simpl. intros [H | [H | []]]; discriminate.
Qed.

(* ===================================================================== *)
(** * Further properties: type inference and column descriptors *)
(* ===================================================================== *)

(** X1. Which storage types [Dtypes.from_nptype] maps to each value:
    the signed and unsigned integers and [timedelta64] to INTEGER, the
    floats ([longdouble] included) to FLOAT, [bool_] to BOOLEAN,
    [datetime64] to DATE, categorical storage, [object_] and [str_] to
    CATEGORICAL.  It raises the unsupported-type error exactly on the
    complex types, [bytes_] and [void], and the [TypeError] of
    [np.issubdtype] exactly on the extension types other than the
    categorical one. *)
Theorem from_nptype_preimages (d : dtype) :
  (from_nptype d = Ok INTERGER ↔
     ∃ t, d = NpDtype t
          ∧ t ∈ [np.int8; np.int16; np.int32; np.int64;
                 np.uint8; np.uint16; np.uint32; np.uint64; np.timedelta64])
  ∧ (from_nptype d = Ok FLOAT ↔
       ∃ t, d = NpDtype t ∧ t ∈ [np.float16; np.float32; np.float64; np.longdouble])
  ∧ (from_nptype d = Ok BOOLEAN ↔ d = NpDtype np.bool_)
  ∧ (from_nptype d = Ok DATE ↔ d = NpDtype np.datetime64)
  ∧ (from_nptype d = Ok CATEGORICAL ↔
       is_categorical_dtype d = true ∨ d = NpDtype np.object_ ∨ d = NpDtype np.str_)
  ∧ (from_nptype d = Raise (UnsupportedType d) ↔
       ∃ t, d = NpDtype t
            ∧ t ∈ [np.complex64; np.complex128; np.clongdouble; np.bytes_; np.void])
  ∧ (from_nptype d = Raise (exn TypeError cannot_interpret_dtype) ↔
       ∃ e, d = ExtensionDtype e).
Proof.
  destruct d as [t | categories ordered | e].
  - destruct t; vm_compute from_nptype; split_and!; split;
      try (intros H; discriminate H);
      try (intros [e H]; discriminate H);
      try (intros (t' & [= <-] & H); closed_elem);
      try (intros [H | [H | H]]; discriminate H);
      try (intros _; eexists; split; [reflexivity | closed_elem]);
      try (intros _; eauto; fail);
      eauto.
  - vm_compute from_nptype. split_and!; split;
      try (intros H; discriminate H);
      try (intros [e H]; discriminate H);
      try (intros (t' & H & _); discriminate H);
      eauto.
  - assert (He : from_nptype (ExtensionDtype e)
                 = Raise (exn TypeError cannot_interpret_dtype)) by reflexivity.
    rewrite He. split_and!; split;
      try (intros H; discriminate H);
      try (intros (t' & H & _); discriminate H);
      try (intros [H | [H | H]]; discriminate H);
      eauto.
Qed.

(** What the storage-type branch returns, by branch. *)
Lemma classify_Ok col p :
  ColumnDescriptor.classify col = Ok p →
  (is_numeric_dtype col = true
   ∧ ColumnDescriptor.p_feature_type p = Continuous
   ∧ is_Some (ColumnDescriptor.p_mean p) ∧ is_Some (ColumnDescriptor.p_median p)
   ∧ is_Some (ColumnDescriptor.p_mode p)
   ∧ from_nptype (Series.dtype col) = Ok (ColumnDescriptor.p_dtypes p))
  ∨ (is_numeric_dtype col = false ∧ is_string_dtype col || is_bool_dtype col = true
     ∧ ColumnDescriptor.p_feature_type p = Ordinal
     ∧ ColumnDescriptor.p_mean p = None ∧ ColumnDescriptor.p_median p = None
     ∧ is_Some (ColumnDescriptor.p_mode p)
     ∧ from_nptype (Series.dtype col) = Ok (ColumnDescriptor.p_dtypes p))
  ∨ (is_numeric_dtype col = false ∧ is_string_dtype col || is_bool_dtype col = false
     ∧ is_datetime64_any_dtype col = true
     ∧ ColumnDescriptor.p_feature_type p = Nominal
     ∧ ColumnDescriptor.p_mean p = None ∧ ColumnDescriptor.p_median p = None
     ∧ ColumnDescriptor.p_mode p = None
     ∧ from_nptype (Series.dtype col) = Ok (ColumnDescriptor.p_dtypes p)).
Proof.
  unfold ColumnDescriptor.classify. intros H.
  destruct (is_numeric_dtype col) eqn:Hnum.
  - apply bind_Ok in H as (mean0 & _ & H). apply bind_Ok in H as (mean & _ & H).
    apply bind_Ok in H as (median0 & _ & H). apply bind_Ok in H as (median & _ & H).
    apply bind_Ok in H as (mode & _ & H). apply bind_Ok in H as (dtypes & Hd & H).
    injection H as <-. left. simpl. eauto 10.
  - destruct (is_string_dtype col || is_bool_dtype col) eqn:Hstr.
    + apply bind_Ok in H as (mode & _ & H). apply bind_Ok in H as (dtypes & Hd & H).
      injection H as <-. right. left. simpl. split_and!; eauto.
      destruct (Series.dtype col) as [t | cs o | e]; simpl in Hd; [done | | done].
      injection Hd as <-. reflexivity.
    + destruct (is_datetime64_any_dtype col) eqn:Hdt; [| discriminate].
      apply bind_Ok in H as (dtypes & Hd & H). injection H as <-.
      right. right. simpl. split_and!; eauto.
Qed.

(** X2. The dtype of every returned column descriptor is what
    [Dtypes.from_nptype] gives for the column's storage type, in each of
    the three branches (the categorical shortcut of the second branch
    included). *)
Theorem descriptor_dtype_is_from_nptype dataset colname target_columns col d :
  DataFrame.getitem dataset colname = Ok (DataFrame.ItemSeries col) →
  ColumnDescriptor.build_from_dataset dataset colname target_columns = Ok d →
  from_nptype (Series.dtype col) = Ok (ColumnDescriptor.dtype d).
Proof.
  intros Hget H. apply build_Ok in H as (col' & p & Hget' & Hp & _ & ->).
  rewrite Hget in Hget'. injection Hget' as <-. simpl.
  by apply classify_Ok in Hp as [H | [H | H]]; destruct_and!.
Qed.

Lemma numeric_storage_dtypes col v :
  is_numeric_dtype col = true → from_nptype (Series.dtype col) = Ok v →
  v ∈ [INTERGER; FLOAT; BOOLEAN].
Proof.
  unfold is_numeric_dtype.
  destruct (Series.dtype col) as [t | cs o | e]; [| discriminate | intros _; discriminate].
  destruct t; intros Hn Hv; vm_compute in Hn; vm_compute in Hv; try discriminate;
    injection Hv as <-; closed_elem.
Qed.

Lemma text_storage_dtypes col v :
  is_numeric_dtype col = false → is_string_dtype col || is_bool_dtype col = true →
  from_nptype (Series.dtype col) = Ok v → v = CATEGORICAL.
Proof.
  unfold is_numeric_dtype, is_string_dtype, is_bool_dtype.
  destruct (Series.dtype col) as [t | cs o | e].
  - destruct t; simpl; intros Hn Hs Hv; try discriminate;
      vm_compute in Hv; congruence.
  - intros _ _ [= <-]. reflexivity.
  - intros _ _ Hv. discriminate Hv.
Qed.

Lemma datetime_storage_dtypes col v :
  is_datetime64_any_dtype col = true →
  from_nptype (Series.dtype col) = Ok v → v = DATE.
Proof.
  unfold is_datetime64_any_dtype.
  destruct (Series.dtype col) as [t | cs o | e]; [| discriminate | intros _; discriminate].
  destruct t; vm_compute; intros Hn Hv; try discriminate; congruence.
Qed.

(** X3. Every returned column descriptor has one of three shapes:
    Continuous with an integer, float or boolean dtype and mean, median
    and mode set; Ordinal with dtype CATEGORICAL, a mode, and neither mean
    nor median; Nominal with dtype DATE and none of the three.  It is
    never [constant]. *)
Theorem descriptor_shape_by_feature_type dataset colname target_columns d :
  ColumnDescriptor.build_from_dataset dataset colname target_columns = Ok d →
  (ColumnDescriptor.feature_type d = Continuous
   ∧ ColumnDescriptor.dtype d ∈ [INTERGER; FLOAT; BOOLEAN]
   ∧ is_Some (ColumnDescriptor.mean d) ∧ is_Some (ColumnDescriptor.median d)
   ∧ is_Some (ColumnDescriptor.mode d))
  ∨ (ColumnDescriptor.feature_type d = Ordinal
     ∧ ColumnDescriptor.dtype d = CATEGORICAL
     ∧ ColumnDescriptor.mean d = None ∧ ColumnDescriptor.median d = None
     ∧ is_Some (ColumnDescriptor.mode d))
  ∨ (ColumnDescriptor.feature_type d = Nominal
     ∧ ColumnDescriptor.dtype d = DATE
     ∧ ColumnDescriptor.mean d = None ∧ ColumnDescriptor.median d = None
     ∧ ColumnDescriptor.mode d = None).
Proof.
  intros H. apply build_Ok in H as (col & p & _ & Hp & _ & ->). simpl.
  apply classify_Ok in Hp as [H | [H | H]].
  - left. destruct H as (Hn & ? & ? & ? & ? & Hd).
    split_and!; try done. by apply (numeric_storage_dtypes col).
  - right. left. destruct H as (Hn & Hs & ? & ? & ? & ? & Hd).
    split_and!; try done. by apply (text_storage_dtypes col).
  - right. right. destruct H as (Hn & Hs & Hdt & ? & ? & ? & ? & Hd).
    split_and!; try done. by apply (datetime_storage_dtypes col).
Qed.

Lemma dropna_isna_length (l : list cell) :
  (length (omap id l) + length (List.filter (fun c : cell => negb (bool_decide (is_Some c))) l)
   = length l)%nat.
Proof.
  induction l as [| [x |] l IH]; simpl; [done | |].
  - f_equal. exact IH.
  - rewrite Nat.add_succ_r. f_equal. exact IH.
Qed.

Lemma filter_length_le {A} (f : A → bool) l : (length (List.filter f l) ≤ length l)%nat.
Proof. induction l as [| x l IH]; simpl; [lia |]. destruct (f x); simpl; lia. Qed.

Lemma unique_length_le l : (length (unique l) ≤ length l)%nat.
Proof.
  induction l as [| x l IH]; simpl; [lia |].
  pose proof (filter_length_le (fun y => negb (scalar_eqb x y)) (unique l)). lia.
Qed.

(** X4. In every returned column descriptor, count and null_count add
    up to the number of rows of the column, unique_valus lies between 0
    and count and is never 1, col_type is TARGET exactly when the name is
    among the target columns and FEATURES otherwise, no imputation is
    configured and the column is selected. *)
Theorem descriptor_counts dataset colname target_columns col d :
  DataFrame.getitem dataset colname = Ok (DataFrame.ItemSeries col) →
  ColumnDescriptor.build_from_dataset dataset colname target_columns = Ok d →
  (ColumnDescriptor.count d + ColumnDescriptor.null_count d
   = Z.of_nat (length (Series.values col)))%Z
  ∧ (0 ≤ ColumnDescriptor.null_count d)%Z
  ∧ (0 ≤ ColumnDescriptor.unique_valus d ≤ ColumnDescriptor.count d)%Z
  ∧ ColumnDescriptor.unique_valus d ≠ 1%Z
  ∧ (ColumnDescriptor.col_type d = TARGET ↔ colname ∈ target_columns)
  ∧ (ColumnDescriptor.col_type d = FEATURES ↔ colname ∉ target_columns)
  ∧ ColumnDescriptor.imputation_scheme d = None
  ∧ ColumnDescriptor.imputation_value d = None
  ∧ ColumnDescriptor.is_selected d = true.
Proof.
  intros Hget H. apply build_Ok in H as (col' & p & Hget' & _ & Hone & ->).
  rewrite Hget in Hget'. injection Hget' as <-. simpl.
  unfold Series.count, Series.isna_sum, Series.nunique, Series.dropna in *.
  pose proof (dropna_isna_length (Series.values col)).
  pose proof (unique_length_le (omap id (Series.values col))).
  split_and!; try done; try lia.
  - case_bool_decide; split; intros; done.
  - case_bool_decide; split; intros; done.
Qed.

(** X5. A numeric column of a numpy type whose entries are all missing
    cannot be profiled: [mean()] over no values is the Python float
    [nan], which has no [item], so [mean().item()] raises
    [AttributeError] before the median and the mode are looked at. *)
Theorem all_missing_numeric_column_raises dataset colname target_columns col t :
  DataFrame.getitem dataset colname = Ok (DataFrame.ItemSeries col) →
  Series.dtype col = NpDtype t →
  is_numeric_dtype col = true →
  Series.count col = 0%Z →
  ColumnDescriptor.build_from_dataset dataset colname target_columns
  = Raise (exn AttributeError (no_attribute "float" "item")).
Proof.
  intros Hget Ht Hnum Hcount. unfold ColumnDescriptor.build_from_dataset.
  rewrite Hget. simpl. unfold ColumnDescriptor.classify. rewrite Hnum.
  unfold Series.count in Hcount.
  assert (Hnil : Series.dropna col = []).
  { destruct (Series.dropna col); [done | simpl in Hcount; lia]. }
  unfold Series.mean, Series.item. rewrite Hnil, Ht. reflexivity.
Qed.

(** X6. A returned descriptor of a datetime column is Nominal with
    dtype DATE and without mean, median or mode. *)
Theorem build_datetime_column dataset colname target_columns col d :
  DataFrame.getitem dataset colname = Ok (DataFrame.ItemSeries col) →
  is_datetime64_any_dtype col = true →
  ColumnDescriptor.build_from_dataset dataset colname target_columns = Ok d →
  ColumnDescriptor.feature_type d = Nominal
  ∧ ColumnDescriptor.dtype d = DATE
  ∧ ColumnDescriptor.mean d = None
  ∧ ColumnDescriptor.median d = None
  ∧ ColumnDescriptor.mode d = None.
Proof.
  intros Hget Hdt H. apply build_Ok in H as (col' & p & Hget' & Hp & _ & ->).
  rewrite Hget in Hget'. injection Hget' as <-. simpl.
  assert (Hnp : ∃ t, Series.dtype col = NpDtype t).
  { apply classify_Ok in Hp as [H | [H | H]]; destruct_and!;
      (destruct (Series.dtype col) as [t | cs o | e] eqn:Ht;
         [by exists t | | discriminate]);
      revert Hdt; unfold is_datetime64_any_dtype; rewrite Ht; discriminate. }
  destruct Hnp as [t Ht].
  assert (Hother : is_numeric_dtype col = false
                   ∧ is_string_dtype col || is_bool_dtype col = false).
  { revert Hdt. unfold is_datetime64_any_dtype, is_numeric_dtype, is_string_dtype,
      is_bool_dtype. rewrite Ht.
    destruct t; vm_compute; intros; try discriminate; done. }
  destruct Hother as [Hn Hs].
  apply classify_Ok in Hp as [H | [H | H]];
    [destruct H as [H _]; congruence | destruct H as (_ & H & _); congruence |].
  destruct H as (_ & _ & _ & ? & ? & ? & ? & Hd).
  split_and!; try done. by apply (datetime_storage_dtypes col).
Qed.

Lemma compatible_passes_validator (v : ColumnDescriptor.t) :
  ¬ incompatible (ColumnDescriptor.dtype v) (ColumnDescriptor.imputation_scheme v)
                 (ColumnDescriptor.imputation_value v) →
  ColumnDescriptor.imputation_scheme_validator v = Ok v.
Proof.
  intros Hc. unfold ColumnDescriptor.imputation_scheme_validator.
  destruct v as [n ct d ft c me md mo nc u scheme value sel]. simpl in *.
  unfold incompatible in Hc.
  destruct d, scheme as [[] |]; simpl; try reflexivity;
    try (exfalso; apply Hc; left; split; [closed_elem | reflexivity]; fail);
    try (exfalso; apply Hc; right; left; split; closed_elem; fail);
    match goal with
    | |- context [negb ?b] =>
        destruct b eqn:Hv; simpl; [reflexivity |];
        exfalso; apply Hc; right; right; split; [reflexivity | exact Hv]
    end.
Qed.

(** X7. The constructor accepts a field assignment with a non-negative
    null_count whose [mode] and [imputation_value] are numbers other than
    booleans, strings or [None], and whose imputation configuration fits
    the dtype: it returns a descriptor with the name, the dtype, the
    scheme, the counts and the statistics as they were passed.  ([mode]
    and [imputation_value] are left out: the model class may give a
    number back in another representation.) *)
Theorem compatible_imputation_accepted (v : ColumnDescriptor.t) :
  (0 ≤ ColumnDescriptor.null_count v)%Z →
  float_int_str (ColumnDescriptor.mode v) = true →
  float_int_str (ColumnDescriptor.imputation_value v) = true →
  ¬ incompatible (ColumnDescriptor.dtype v) (ColumnDescriptor.imputation_scheme v)
                 (ColumnDescriptor.imputation_value v) →
  ∃ d, ColumnDescriptor.new v = Ok d
        ∧ ColumnDescriptor.name d = ColumnDescriptor.name v
        ∧ ColumnDescriptor.col_type d = ColumnDescriptor.col_type v
        ∧ ColumnDescriptor.dtype d = ColumnDescriptor.dtype v
        ∧ ColumnDescriptor.feature_type d = ColumnDescriptor.feature_type v
        ∧ ColumnDescriptor.count d = ColumnDescriptor.count v
        ∧ ColumnDescriptor.mean d = ColumnDescriptor.mean v
        ∧ ColumnDescriptor.median d = ColumnDescriptor.median v
        ∧ ColumnDescriptor.null_count d = ColumnDescriptor.null_count v
        ∧ ColumnDescriptor.unique_valus d = ColumnDescriptor.unique_valus v
        ∧ ColumnDescriptor.imputation_scheme d = ColumnDescriptor.imputation_scheme v
        ∧ ColumnDescriptor.is_selected d = ColumnDescriptor.is_selected v.
Proof.
  intros Hn Hmode Hvalue Hc.
  exists v. split; [| by split_and!].
  unfold ColumnDescriptor.new.
  destruct (Z.ltb_spec (ColumnDescriptor.null_count v) 0); [lia |].
  by apply compatible_passes_validator.
Qed.

Lemma descriptor_dtype_is_from_nptype_witness :
  DataFrame.getitem Samples.mixed_frame "s"
    = Ok (DataFrame.ItemSeries
            (Series.mk "s" (NpDtype np.object_)
               [Some (VStr "a"); Some (VStr "b"); Some (VStr "a")]))
  ∧ ColumnDescriptor.build_from_dataset Samples.mixed_frame "s" ["id"]
    = Ok Samples.s_descriptor
  ∧ from_nptype (NpDtype np.object_) = Ok (ColumnDescriptor.dtype Samples.s_descriptor).
Proof.
  split; [reflexivity |]. split; [vm_compute; reflexivity |].
  apply (descriptor_dtype_is_from_nptype Samples.mixed_frame "s" ["id"]
           (Series.mk "s" (NpDtype np.object_)
              [Some (VStr "a"); Some (VStr "b"); Some (VStr "a")]) Samples.s_descriptor);
    vm_compute; reflexivity.
Defined.

Lemma descriptor_shape_by_feature_type_witness :
  ColumnDescriptor.build_from_dataset Samples.mixed_frame "id" ["id"]
    = Ok Samples.id_descriptor
  ∧ ((ColumnDescriptor.feature_type Samples.id_descriptor = Continuous
      ∧ ColumnDescriptor.dtype Samples.id_descriptor ∈ [INTERGER; FLOAT; BOOLEAN]
      ∧ is_Some (ColumnDescriptor.mean Samples.id_descriptor)
      ∧ is_Some (ColumnDescriptor.median Samples.id_descriptor)
      ∧ is_Some (ColumnDescriptor.mode Samples.id_descriptor))
     ∨ (ColumnDescriptor.feature_type Samples.id_descriptor = Ordinal
        ∧ ColumnDescriptor.dtype Samples.id_descriptor = CATEGORICAL
        ∧ ColumnDescriptor.mean Samples.id_descriptor = None
        ∧ ColumnDescriptor.median Samples.id_descriptor = None
        ∧ is_Some (ColumnDescriptor.mode Samples.id_descriptor))
     ∨ (ColumnDescriptor.feature_type Samples.id_descriptor = Nominal
        ∧ ColumnDescriptor.dtype Samples.id_descriptor = DATE
        ∧ ColumnDescriptor.mean Samples.id_descriptor = None
        ∧ ColumnDescriptor.median Samples.id_descriptor = None
        ∧ ColumnDescriptor.mode Samples.id_descriptor = None)).
Proof.
  split; [vm_compute; reflexivity |].
  apply (descriptor_shape_by_feature_type Samples.mixed_frame "id" ["id"]).
  vm_compute; reflexivity.
Defined.

Lemma descriptor_counts_witness :
  let col := Series.mk "when" (NpDtype np.datetime64)
               [Some (VDatetime 10); None; Some (VDatetime 20)] in
  let d := Samples.timestamps_descriptor in
  DataFrame.getitem Samples.timestamps_frame "when" = Ok (DataFrame.ItemSeries col)
  ∧ ColumnDescriptor.build_from_dataset Samples.timestamps_frame "when" [] = Ok d
  ∧ ((ColumnDescriptor.count d + ColumnDescriptor.null_count d
      = Z.of_nat (length (Series.values col)))%Z
     ∧ (0 ≤ ColumnDescriptor.null_count d)%Z
     ∧ (0 ≤ ColumnDescriptor.unique_valus d ≤ ColumnDescriptor.count d)%Z
     ∧ ColumnDescriptor.unique_valus d ≠ 1%Z
     ∧ (ColumnDescriptor.col_type d = TARGET ↔ "when" ∈ @nil string)
     ∧ (ColumnDescriptor.col_type d = FEATURES ↔ "when" ∉ @nil string)
     ∧ ColumnDescriptor.imputation_scheme d = None
     ∧ ColumnDescriptor.imputation_value d = None
     ∧ ColumnDescriptor.is_selected d = true).
Proof.
  intros col d. split; [reflexivity |]. split; [vm_compute; reflexivity |].
  apply (descriptor_counts Samples.timestamps_frame "when" [] col d);
    vm_compute; reflexivity.
Defined.

Lemma all_missing_numeric_column_raises_witness :
  let col := Series.mk "v" (NpDtype np.float64) [None; None] in
  DataFrame.getitem Samples.all_missing_frame "v" = Ok (DataFrame.ItemSeries col)
  ∧ Series.dtype col = NpDtype np.float64
  ∧ is_numeric_dtype col = true
  ∧ Series.count col = 0%Z
  ∧ ColumnDescriptor.build_from_dataset Samples.all_missing_frame "v" []
    = Raise (exn AttributeError (no_attribute "float" "item")).
Proof.
  intros col. repeat (split; [reflexivity |]).
  apply (all_missing_numeric_column_raises Samples.all_missing_frame "v" [] col np.float64);
    reflexivity.
Defined.

Lemma build_datetime_column_witness :
  let col := Series.mk "when" (NpDtype np.datetime64)
               [Some (VDatetime 10); None; Some (VDatetime 20)] in
  let d := Samples.timestamps_descriptor in
  DataFrame.getitem Samples.timestamps_frame "when" = Ok (DataFrame.ItemSeries col)
  ∧ is_datetime64_any_dtype col = true
  ∧ ColumnDescriptor.build_from_dataset Samples.timestamps_frame "when" [] = Ok d
  ∧ (ColumnDescriptor.feature_type d = Nominal
     ∧ ColumnDescriptor.dtype d = DATE
     ∧ ColumnDescriptor.mean d = None
     ∧ ColumnDescriptor.median d = None
     ∧ ColumnDescriptor.mode d = None).
Proof.
  intros col d. split; [reflexivity |]. split; [reflexivity |].
  split; [vm_compute; reflexivity |].
  apply (build_datetime_column Samples.timestamps_frame "when" [] col d);
    vm_compute; reflexivity.
Defined.

Lemma compatible_imputation_accepted_witness :
  let v := ColumnDescriptor.mk "age" FEATURES INTERGER Continuous 3
             (Some (fin 30)) (Some (fin 30)) (Some (VInt 30)) 0 3
             (Some VALUE) (Some (VInt 0)) true in
  (0 ≤ ColumnDescriptor.null_count v)%Z
  ∧ float_int_str (ColumnDescriptor.mode v) = true
  ∧ float_int_str (ColumnDescriptor.imputation_value v) = true
  ∧ ¬ incompatible (ColumnDescriptor.dtype v) (ColumnDescriptor.imputation_scheme v)
                   (ColumnDescriptor.imputation_value v)
  ∧ (∃ d, ColumnDescriptor.new v = Ok d
          ∧ ColumnDescriptor.name d = ColumnDescriptor.name v
          ∧ ColumnDescriptor.col_type d = ColumnDescriptor.col_type v
          ∧ ColumnDescriptor.dtype d = ColumnDescriptor.dtype v
          ∧ ColumnDescriptor.feature_type d = ColumnDescriptor.feature_type v
          ∧ ColumnDescriptor.count d = ColumnDescriptor.count v
          ∧ ColumnDescriptor.mean d = ColumnDescriptor.mean v
          ∧ ColumnDescriptor.median d = ColumnDescriptor.median v
          ∧ ColumnDescriptor.null_count d = ColumnDescriptor.null_count v
          ∧ ColumnDescriptor.unique_valus d = ColumnDescriptor.unique_valus v
          ∧ ColumnDescriptor.imputation_scheme d = ColumnDescriptor.imputation_scheme v
          ∧ ColumnDescriptor.is_selected d = ColumnDescriptor.is_selected v).
Proof.
  intros v.
  assert (Hn : (0 ≤ ColumnDescriptor.null_count v)%Z) by (simpl; lia).
  assert (Hc : ¬ incompatible (ColumnDescriptor.dtype v)
                              (ColumnDescriptor.imputation_scheme v)
                              (ColumnDescriptor.imputation_value v)).
  { intros [[_ H] | [[H _] | [_ H]]]; [discriminate H | closed_elem | discriminate H]. }
  split; [exact Hn |]. split; [reflexivity |]. split; [reflexivity |]. split; [exact Hc |].
  exact (compatible_imputation_accepted v Hn eq_refl eq_refl Hc).
Defined.

(** [build_numeric_column] and [build_string_column] at sample inputs. *)
Lemma build_numeric_column_witness :
  let col := Series.mk "flag" (NpDtype np.bool_)
               [Some (VBool true); Some (VBool false); Some (VBool true)] in
  let d := ColumnDescriptor.mk "flag" FEATURES BOOLEAN Continuous 3
             (Some (fin (2 # 3))) (Some (fin 1)) (Some (VBool true))
             0 2 None None true in
  DataFrame.getitem Samples.flags_frame "flag" = Ok (DataFrame.ItemSeries col)
  ∧ is_numeric_dtype col = true
  ∧ ColumnDescriptor.build_from_dataset Samples.flags_frame "flag" [] = Ok d
  ∧ (ColumnDescriptor.feature_type d = Continuous
     ∧ is_Some (ColumnDescriptor.mean d)
     ∧ is_Some (ColumnDescriptor.median d)
     ∧ is_Some (ColumnDescriptor.mode d)).
Proof.
  intros col d. split; [reflexivity |]. split; [reflexivity |].
  split; [vm_compute; reflexivity |].
  apply (build_numeric_column Samples.flags_frame "flag" [] col d);
    vm_compute; reflexivity.
Defined.

Lemma build_string_column_witness :
  let col := Series.mk "s" (NpDtype np.object_)
               [Some (VStr "a"); Some (VStr "b"); Some (VStr "a")] in
  DataFrame.getitem Samples.mixed_frame "s" = Ok (DataFrame.ItemSeries col)
  ∧ is_numeric_dtype col = false
  ∧ is_string_dtype col || is_bool_dtype col = true
  ∧ ColumnDescriptor.build_from_dataset Samples.mixed_frame "s" ["id"]
    = Ok Samples.s_descriptor
  ∧ (ColumnDescriptor.feature_type Samples.s_descriptor = Ordinal
     ∧ is_Some (ColumnDescriptor.mode Samples.s_descriptor)
     ∧ ColumnDescriptor.mean Samples.s_descriptor = None
     ∧ ColumnDescriptor.median Samples.s_descriptor = None).
Proof.
  intros col. split; [reflexivity |]. split; [reflexivity |]. split; [reflexivity |].
  split; [vm_compute; reflexivity |].
  apply (build_string_column Samples.mixed_frame "s" ["id"] col Samples.s_descriptor);
    vm_compute; reflexivity.
Defined.

(* ===================================================================== *)
(** * Further properties: dataset descriptors and transformers *)
(* ===================================================================== *)

(** The keep-first mask marks the entries equal to a seen one or to an
    earlier entry. *)
Lemma duplicated_mask_spec {A} (eqb : A → A → bool) (xs seen : list A) (i : nat) (x : A) :
  nth_error xs i = Some x →
  nth_error (DataFrame.duplicated_mask eqb seen xs) i = Some true ↔
  (∃ y, In y seen ∧ eqb x y = true)
  ∨ (∃ j y, (j < i)%nat ∧ nth_error xs j = Some y ∧ eqb x y = true).
Proof.
  revert seen i. induction xs as [| x0 xs IH]; intros seen i Hx.
  - destruct i; discriminate.
  - destruct i as [| i]; simpl in *.
    + injection Hx as ->. split.
      * intros [= H]. left. by apply existsb_exists in H.
      * intros [H | (j & y & Hj & _)]; [| lia]. f_equal. by apply existsb_exists.
    + rewrite (IH (seen ++ [x0]) i Hx). split.
      * intros [(y & Hy & He) | (j & y & Hj & Hy & He)].
        -- apply in_app_or in Hy as [Hy | [<- | []]]; [eauto |].
           right. exists 0%nat, x0. split_and!; [lia | done | done].
        -- right. exists (S j), y. split_and!; [lia | done | done].
      * intros [(y & Hy & He) | (j & y & Hj & Hy & He)].
        -- left. exists y. split; [apply in_or_app; auto | done].
        -- destruct j as [| j]; simpl in Hy.
           ++ injection Hy as ->. left. exists y. split; [apply in_or_app; simpl; auto | done].
           ++ right. exists j, y. split_and!; [lia | done | done].
Qed.

Lemma duplicated_mask_length {A} (eqb : A → A → bool) (xs seen : list A) :
  length (DataFrame.duplicated_mask eqb seen xs) = length xs.
Proof. revert seen. induction xs; intros; simpl; [done | by rewrite IHxs]. Qed.

(** [xs[mask]] holds the entries at the positions the mask marks. *)
Lemma select_mask_In {A} (xs : list A) (mask : list bool) (x : A) :
  In x (DataFrame.select_mask xs mask) ↔
  ∃ i, nth_error xs i = Some x ∧ nth_error mask i = Some true.
Proof.
  revert mask. induction xs as [| x0 xs IH]; intros mask; simpl.
  - split; [done | intros ([| i] & H & _); discriminate].
  - destruct mask as [| b mask].
    + split; [done | intros ([| i] & _ & H); discriminate].
    + destruct b; simpl; rewrite ?IH; split.
      * intros [<- | (i & ? & ?)]; [by exists 0%nat | by exists (S i)].
      * intros ([| i] & Hx & Hm); simpl in *; [left; congruence | right; eauto].
      * intros (i & ? & ?). by exists (S i).
      * intros ([| i] & Hx & Hm); simpl in *; [discriminate | eauto].
Qed.

Lemma rows_nth df i n :
  (i < n)%nat → nth_error (map (DataFrame.row df) (seq 0 n)) i = Some (DataFrame.row df i).
Proof.
  intros Hi. rewrite nth_error_map, nth_error_seq.
  destruct (Nat.ltb_spec i n); [done | lia].
Qed.

(** X10. In every returned dataset descriptor, row_count is the number
    of rows, and a label is in duplicate_rows exactly when it labels a
    row whose cells equal, column by column, those of an earlier row
    (missing entries compare equal); the first occurrence is never
    listed. *)
Theorem duplicate_rows_repeat_an_earlier_row dataset target_columns d (label : Z) :
  DatasetDescriptor.build_from_dataset dataset target_columns = Ok d →
  DatasetDescriptor.row_count d = Z.of_nat (length (DataFrame.index dataset))
  ∧ (In label (DatasetDescriptor.duplicate_rows d) ↔
     ∃ i j, nth_error (DataFrame.index dataset) i = Some label
            ∧ (j < i)%nat
            ∧ DataFrame.cells_eqb (DataFrame.row dataset i) (DataFrame.row dataset j) = true).
Proof.
  unfold DatasetDescriptor.build_from_dataset. simpl. intros H.
  apply bind_Ok in H as (rows & Hrows & H).
  apply bind_Ok in H as (infos & _ & H).
  unfold DatasetDescriptor.new in H. simpl in H.
  case_match; [discriminate |]. injection H as <-. simpl.
  split; [done |].
  unfold DataFrame.index_where in Hrows.
  destruct (Nat.eqb_spec (length (DataFrame.duplicated dataset))
                         (length (DataFrame.index dataset))) as [Hlen |];
    [| discriminate].
  injection Hrows as <-.
  rewrite select_mask_In. unfold DataFrame.duplicated in *.
  destruct (DataFrame.empty dataset).
  { destruct (DataFrame.index dataset); [| discriminate].
    split; [intros ([| i] & Hi & _); discriminate
           | intros ([| i] & j & Hi & _); discriminate]. }
  clear Hlen.
  set (n := length (DataFrame.index dataset)).
  split.
  - intros (i & Hi & Hm).
    assert (Hlt : (i < n)%nat) by (apply nth_error_Some; unfold n; congruence).
    apply (duplicated_mask_spec _ _ _ _ _ (rows_nth dataset i n Hlt)) in Hm
      as [(y & [] & _) | (j & y & Hj & Hy & He)].
    rewrite rows_nth in Hy by lia. injection Hy as <-. eauto.
  - intros (i & j & Hi & Hj & He). exists i. split; [done |].
    assert (Hlt : (i < n)%nat) by (apply nth_error_Some; unfold n; congruence).
    apply (duplicated_mask_spec _ _ _ _ _ (rows_nth dataset i n Hlt)).
    right. exists j, (DataFrame.row dataset j). split_and!; [done | | done].
    apply rows_nth. lia.
Qed.

(** ** The shared check of the requested names *)

(** Either every requested name is a column and the check passes, or it
    raises [KeyError] with exactly the requested names that are not. *)
Lemma check_column_names_spec (cols : list string) df :
  ((∀ c, c ∈ cols → c ∈ DataFrame.columns df)
   ∧ check_column_names cols (PyDataFrame df) = Ok tt)
  ∨ (∃ missing,
       check_column_names cols (PyDataFrame df)
       = Raise (exn KeyError (not_in_DataFrame missing))
       ∧ missing ≠ []
       ∧ ∀ c, c ∈ missing ↔ c ∈ cols ∧ c ∉ DataFrame.columns df).
Proof.
  unfold check_column_names. simpl.
  set (s := list_to_set cols ∖ list_to_set (DataFrame.columns df) : gset string).
  assert (Hs : ∀ c, c ∈ s ↔ c ∈ cols ∧ c ∉ DataFrame.columns df).
  { intros c. unfold s. rewrite elem_of_difference, !elem_of_list_to_set. done. }
  destruct (Nat.ltb_spec 0 (size s)) as [Hpos | Hzero].
  - right. exists (elements s). split; [done |]. split.
    + intros Hnil. apply elements_empty_inv in Hnil.
      apply size_empty_iff in Hnil. lia.
    + intros c. by rewrite elem_of_elements.
  - left. split; [| done]. intros c Hc.
    destruct (decide (c ∈ DataFrame.columns df)) as [| Hnot]; [done |].
    assert (Hin : c ∈ s) by (by apply Hs).
    assert (Hempty : s ≡ ∅) by (apply size_empty_iff; lia).
    rewrite Hempty in Hin. by apply not_elem_of_empty in Hin.
Qed.

(** ** [DataFrame.drop] *)

Lemma drop_present df (cols : list string) :
  (∀ c, c ∈ cols → c ∈ DataFrame.columns df) →
  DataFrame.drop df cols
  = Ok (DataFrame.mk (DataFrame.index df) (List.filter (kept_by cols) (DataFrame.data df))).
Proof.
  intros Hall. unfold DataFrame.drop.
  assert (Hnil : List.filter (fun c => negb (bool_decide (c ∈ DataFrame.columns df))) cols
                 = []).
  { induction cols as [| c cols IH]; simpl; [done |].
    rewrite bool_decide_eq_true_2 by (apply Hall; left). simpl.
    apply IH. intros c' Hc'. apply Hall. by right. }
  by rewrite Hnil.
Qed.

Lemma kept_names (cols : list string) (data : list Series.t) :
  map Series.name (List.filter (kept_by cols) data)
  = List.filter (fun c => negb (bool_decide (c ∈ cols))) (map Series.name data).
Proof.
  induction data as [| s data IH]; simpl; [done |].
  unfold kept_by at 1. destruct (negb (bool_decide (Series.name s ∈ cols))); simpl;
    by rewrite IH.
Qed.

Lemma kept_nil_iff (cols names : list string) :
  List.filter (fun c => negb (bool_decide (c ∈ cols))) names = []
  ↔ ∀ c, c ∈ names → c ∈ cols.
Proof.
  induction names as [| n names IH]; simpl.
  - split; [intros _ c Hc; by apply elem_of_nil in Hc | done].
  - case_bool_decide as Hn; simpl.
    + rewrite IH. split.
      * intros H c Hc. apply elem_of_cons in Hc as [-> | Hc]; auto.
      * intros H c Hc. apply H. by right.
    + split; [discriminate |]. intros H. destruct Hn. apply H. left.
Qed.

(** ** ColumnDropper *)

Lemma fit_rejects_input_defect X e :
  input_defect X e →
  (∀ self, fst (ColumnDropper.fit X self) = Raise e)
  ∧ (∀ self, fst (PandasTypeSelector.fit X self) = Raise e)
  ∧ (∀ self, as_list (ColumnSelector.columns self) ≠ [] →
             fst (ColumnSelector.fit X self) = Raise e).
Proof.
  intros H. apply check_X_for_type_defect in H. split_and!; intros self.
  - unfold ColumnDropper.fit. run_method. by rewrite H.
  - unfold PandasTypeSelector.fit. run_method. by rewrite H.
  - intros Hne. unfold ColumnSelector.fit. run_method.
    destruct (as_list (ColumnSelector.columns self)); [done |]. simpl. by rewrite H.
Qed.

Lemma py_drop_frame df cols :
  py_drop (PyDataFrame df) cols = df' ← DataFrame.drop df cols; Ok (PyDataFrame df').
Proof. reflexivity. Qed.

Opaque py_drop check_column_names check_X_for_type.

(** What [fit] does on a non-empty frame that has every column to drop:
    it records the drop-list and the retained names, and fails only when
    nothing is retained. *)
Lemma ColumnDropper_fit_present self df :
  DataFrame.empty df = false →
  (∀ c, c ∈ as_list (ColumnDropper.columns self) → c ∈ DataFrame.columns df) →
  let cols := as_list (ColumnDropper.columns self) in
  let retained := List.filter (fun c => negb (bool_decide (c ∈ cols))) (DataFrame.columns df) in
  ColumnDropper.fit (PyDataFrame df) self
  = ((if Nat.eqb (length retained) 0
      then Raise (exn ValueError (dropping_results_in_empty cols))
      else Ok tt),
     ColumnDropper.mk (ColumnDropper.columns self) (Some cols) (Some retained)).
Proof.
  intros Hne Hall cols retained.
  unfold ColumnDropper.fit, ColumnDropper._check_column_names,
    ColumnDropper._check_column_length. run_method.
  rewrite (check_X_for_type_Ok df Hne).
  destruct (check_column_names_spec cols df) as [[_ Hok] | (missing & _ & Hm & Hiff)].
  - fold cols. rewrite Hok.
    rewrite py_drop_frame, (drop_present df cols Hall). simpl.
    assert (Hcols : DataFrame.columns
                      (DataFrame.mk (DataFrame.index df)
                         (List.filter (kept_by cols) (DataFrame.data df))) = retained)
      by apply kept_names.
    rewrite !Hcols. unfold lift. by destruct (length retained =? 0)%nat.
  - destruct missing as [| c missing]; [done |].
    destruct (proj1 (Hiff c) ltac:(left)) as [Hc Hnot]. destruct Hnot. by apply Hall.
Qed.


(** What [fit] does on a non-empty frame when the check of the names
    raises: the drop-list is recorded, [feature_names_] is not touched. *)
Lemma ColumnDropper_fit_rejected self df e :
  DataFrame.empty df = false →
  check_column_names (as_list (ColumnDropper.columns self)) (PyDataFrame df) = Raise e →
  ColumnDropper.fit (PyDataFrame df) self
  = (Raise e,
     ColumnDropper.mk (ColumnDropper.columns self)
       (Some (as_list (ColumnDropper.columns self))) (ColumnDropper.feature_names_ self)).
Proof.
  intros Hne Hc.
  unfold ColumnDropper.fit, ColumnDropper._check_column_names. run_method.
  by rewrite (check_X_for_type_Ok df Hne), Hc.
Qed.

Transparent py_drop check_column_names check_X_for_type.

(** X12. [ColumnDropper.fit] returns exactly when its input is a
    non-empty DataFrame that has every column of the drop-list and at
    least one column outside it. *)
Theorem ColumnDropper_fit_iff self df :
  returns (ColumnDropper.fit (PyDataFrame df)) self tt ↔
  DataFrame.empty df = false
  ∧ (∀ c, c ∈ as_list (ColumnDropper.columns self) → c ∈ DataFrame.columns df)
  ∧ (∃ c, c ∈ DataFrame.columns df ∧ c ∉ as_list (ColumnDropper.columns self)).
Proof.
  unfold returns.
  destruct (DataFrame.empty df) eqn:Hne.
  { split; [| intros [? _]; discriminate].
    assert (Hd : input_defect (PyDataFrame df) EmptyInput) by (right; eauto).
    destruct (fit_rejects_input_defect _ _ Hd) as (Hfit & _).
    rewrite (Hfit self). discriminate. }
  destruct (check_column_names_spec (as_list (ColumnDropper.columns self)) df)
    as [[Hall _] | (missing & Hm & Hnil & Hiff)].
  - rewrite (ColumnDropper_fit_present self df Hne Hall). simpl.
    set (retained := List.filter _ _).
    destruct (Nat.eqb_spec (length retained) 0) as [Hz | Hnz].
    + split; [discriminate |]. intros (_ & _ & c & Hc & Hnot).
      apply length_zero_iff_nil in Hz. destruct Hnot.
      by apply (proj1 (kept_nil_iff _ _) Hz).
    + split; [| done]. intros _. split_and!; [done | done |].
      destruct retained as [| c r] eqn:Hr; [done |].
      assert (Hc : In c retained) by (rewrite Hr; left; done).
      unfold retained in Hc. apply filter_In in Hc as [Hc Hk].
      exists c. split; [by apply list_elem_of_In |].
      apply negb_true_iff in Hk. by apply bool_decide_eq_false in Hk.
  - rewrite (ColumnDropper_fit_rejected self df _ Hne Hm). simpl.
    split; [discriminate |]. intros (_ & Hall & _).
    destruct missing as [| c missing]; [done |].
    destruct (proj1 (Hiff c) ltac:(left)) as [Hc Hnot]. destruct Hnot. by apply Hall.
Qed.

Lemma kept_by_nil (data : list Series.t) : List.filter (kept_by []) data = data.
Proof. induction data as [| s data IH]; simpl in *; [done | by f_equal]. Qed.

Lemma kept_by_all (cols : list string) (data : list Series.t) :
  (∀ c, c ∈ map Series.name data → c ∈ cols) → List.filter (kept_by cols) data = [].
Proof.
  induction data as [| s data IH]; simpl; intros Hall; [done |].
  unfold kept_by at 1. rewrite bool_decide_eq_true_2 by (apply Hall; left). simpl.
  apply IH. intros c Hc. apply Hall. by right.
Qed.

(** [transform] of an instance with [cols] recorded, on a non-empty
    frame that has every column of [cols]. *)
Lemma ColumnDropper_transform_present columns cols names df :
  DataFrame.empty df = false →
  (∀ c, c ∈ cols → c ∈ DataFrame.columns df) →
  ColumnDropper.transform (PyDataFrame df) (ColumnDropper.mk columns (Some cols) (Some names))
  = (Ok (PyDataFrame (DataFrame.mk (DataFrame.index df)
                        (List.filter (kept_by cols) (DataFrame.data df)))),
     ColumnDropper.mk columns (Some cols) (Some names)).
Proof.
  intros Hne Hall. unfold ColumnDropper.transform. run_method.
  rewrite Hne. simpl. destruct cols as [| c cols]; simpl.
  - rewrite kept_by_nil. by destruct df.
  - by rewrite (drop_present df (c :: cols) Hall).
Qed.

(** X13. After a successful [fit], [transform] on a non-empty frame
    that has every column of the drop-list returns that frame without
    those columns, index and remaining columns untouched and in order
    (for the empty drop-list, the frame itself); and
    [get_feature_names] gives the names [transform] leaves of the frame
    fitted on. *)
Theorem ColumnDropper_transform_drops self df df' :
  returns (ColumnDropper.fit (PyDataFrame df)) self tt →
  DataFrame.empty df' = false →
  (∀ c, c ∈ as_list (ColumnDropper.columns self) → c ∈ DataFrame.columns df') →
  returns (ColumnDropper.transform (PyDataFrame df'))
          (snd (ColumnDropper.fit (PyDataFrame df) self))
          (PyDataFrame
             (DataFrame.mk (DataFrame.index df')
                (List.filter (kept_by (as_list (ColumnDropper.columns self)))
                             (DataFrame.data df'))))
  ∧ returns ColumnDropper.get_feature_names
            (snd (ColumnDropper.fit (PyDataFrame df) self))
            (map Series.name
               (List.filter (kept_by (as_list (ColumnDropper.columns self)))
                            (DataFrame.data df))).
Proof.
  intros Hfit Hne' Hall'. apply ColumnDropper_fit_iff in Hfit as (Hne & Hall & _).
  unfold returns. rewrite (ColumnDropper_fit_present self df Hne Hall). simpl. split.
  - by rewrite ColumnDropper_transform_present.
  - by rewrite kept_names.
Qed.

(** X14. When the drop-list covers every column of a non-empty frame,
    [fit] fails with the empty-result error, but only after it has set
    [feature_names_] to the empty list: the instance passes
    [check_is_fitted], and [transform] on that frame returns a frame
    without columns instead of the not-fitted error. *)
Theorem ColumnDropper_fit_all_dropped self df :
  DataFrame.empty df = false →
  (∀ c, c ∈ as_list (ColumnDropper.columns self) → c ∈ DataFrame.columns df) →
  (∀ c, c ∈ DataFrame.columns df → c ∈ as_list (ColumnDropper.columns self)) →
  fails_with (ColumnDropper.fit (PyDataFrame df)) self
             (exn ValueError
                (dropping_results_in_empty (as_list (ColumnDropper.columns self))))
  ∧ ColumnDropper.feature_names_ (snd (ColumnDropper.fit (PyDataFrame df) self)) = Some []
  ∧ returns (ColumnDropper.transform (PyDataFrame df))
            (snd (ColumnDropper.fit (PyDataFrame df) self))
            (PyDataFrame (DataFrame.mk (DataFrame.index df) [])).
Proof.
  intros Hne Hall Hcover. unfold fails_with, returns.
  rewrite (ColumnDropper_fit_present self df Hne Hall). simpl.
  rewrite (proj2 (kept_nil_iff _ _) Hcover). simpl. split_and!; [done | done |].
  rewrite ColumnDropper_transform_present by done. simpl.
  by rewrite (kept_by_all _ _ Hcover).
Qed.

(** X15. On a non-empty frame that lacks some requested column,
    [ColumnDropper.fit] and [ColumnSelector.fit] raise [KeyError] with
    exactly the requested names that are absent, and the
    [ColumnDropper] stays unfitted: its [transform] raises the
    not-fitted error. *)
Theorem fit_missing_columns columns df :
  DataFrame.empty df = false →
  (∃ c, c ∈ as_list columns ∧ c ∉ DataFrame.columns df) →
  ∃ missing,
    (∀ c, c ∈ missing ↔ c ∈ as_list columns ∧ c ∉ DataFrame.columns df)
    ∧ fails_with (ColumnDropper.fit (PyDataFrame df)) (ColumnDropper.__init__ columns)
                 (exn KeyError (not_in_DataFrame missing))
    ∧ fails_with (ColumnSelector.fit (PyDataFrame df)) (ColumnSelector.__init__ columns)
                 (exn KeyError (not_in_DataFrame missing))
    ∧ fails_with (ColumnDropper.transform (PyDataFrame df))
                 (snd (ColumnDropper.fit (PyDataFrame df) (ColumnDropper.__init__ columns)))
                 NotFitted.
Proof.
  intros Hne (c & Hc & Hnot).
  destruct (check_column_names_spec (as_list columns) df)
    as [[Hall _] | (missing & Hm & _ & Hiff)]; [by destruct Hnot; apply Hall |].
  exists missing. split; [done |]. unfold fails_with.
  rewrite (ColumnDropper_fit_rejected (ColumnDropper.__init__ columns) df _ Hne Hm).
  simpl. split_and!; [done | | done].
  unfold ColumnSelector.fit, ColumnSelector._check_column_names. run_method.
  destruct (as_list columns) as [| c0 cs] eqn:Hl; [by apply elem_of_nil in Hc |].
  simpl. rewrite Hne. simpl. by rewrite Hm.
Qed.

(** ** ColumnSelector *)

(** X16. [ColumnSelector.fit] returns exactly when the requested list
    is not empty and the input is a non-empty DataFrame that has every
    requested column. *)
Theorem ColumnSelector_fit_iff self X :
  returns (ColumnSelector.fit X) self tt ↔
  as_list (ColumnSelector.columns self) ≠ []
  ∧ ∃ df, X = PyDataFrame df
          ∧ DataFrame.empty df = false
          ∧ ∀ c, c ∈ as_list (ColumnSelector.columns self) → c ∈ DataFrame.columns df.
Proof.
  unfold returns, ColumnSelector.fit, ColumnSelector._check_column_names. run_method.
  destruct (as_list (ColumnSelector.columns self)) as [| c0 cs] eqn:Hl; simpl.
  { split; [discriminate | by intros [? _]]. }
  destruct X as [df | shape data | type_name]; simpl;
    [| split; [discriminate | intros (_ & df & ? & _); discriminate] ..].
  destruct (DataFrame.empty df) eqn:Hne; simpl.
  { split; [discriminate | intros (_ & df' & [= <-] & ? & _); congruence]. }
  destruct (check_column_names_spec (c0 :: cs) df)
    as [[Hall Hok] | (missing & Hm & Hnil & Hiff)].
  - rewrite Hok. simpl. split; [| done]. intros _. split; [done |]. eauto.
  - rewrite Hm. simpl. split; [discriminate |].
    intros (_ & df' & [= <-] & _ & Hall).
    destruct missing as [| c missing]; [done |].
    destruct (proj1 (Hiff c) ltac:(left)) as [Hc Hnot]. destruct Hnot. by apply Hall.
Qed.

(** [fit] always leaves the normalised list in [columns_]. *)
Lemma ColumnSelector_fit_state X self :
  snd (ColumnSelector.fit X self)
  = ColumnSelector.mk (ColumnSelector.columns self)
      (Some (as_list (ColumnSelector.columns self))).
Proof.
  unfold ColumnSelector.fit, ColumnSelector._check_column_names. run_method.
  repeat (case_match; simpl; try done).
Qed.

(** In a frame without repeated names, a name selects its one column. *)
Lemma filter_name_unique (data : list Series.t) c :
  NoDup (map Series.name data) →
  c ∈ map Series.name data →
  ∃ s, List.filter (fun s => String.eqb (Series.name s) c) data = [s]
       ∧ Series.name s = c ∧ In s data.
Proof.
  induction data as [| s data IH]; simpl; intros Hnd Hc.
  - by apply elem_of_nil in Hc.
  - apply NoDup_cons in Hnd as [Hs Hnd].
    destruct (String.eqb_spec (Series.name s) c) as [Heq | Hneq].
    + exists s. split_and!; [| done | by left]. f_equal.
      assert (Hnone : ∀ l : list Series.t, c ∉ map Series.name l →
                List.filter (fun s => String.eqb (Series.name s) c) l = []).
      { induction l as [| s' l IHl]; simpl; intros Hl; [done |].
        destruct (String.eqb_spec (Series.name s') c) as [<- | _].
        - destruct Hl. left.
        - apply IHl. intros H. apply Hl. by right. }
      apply Hnone. by rewrite <- Heq.
    + apply elem_of_cons in Hc as [-> | Hc]; [done |].
      destruct (IH Hnd Hc) as (s' & Hf & Hn & Hin). exists s'. split_and!; auto.
Qed.

Lemma getitem_list_unique df (keys : list string) :
  NoDup (DataFrame.columns df) →
  (∀ c, c ∈ keys → c ∈ DataFrame.columns df) →
  ∃ ss, DataFrame.getitem_list df keys = Ok ss
        ∧ map Series.name ss = keys
        ∧ ∀ s, In s ss → In s (DataFrame.data df).
Proof.
  intros Hnd. induction keys as [| k keys IH]; intros Hall; simpl.
  - exists []. split_and!; [done | done | intros s []].
  - destruct (filter_name_unique (DataFrame.data df) k Hnd) as (s & Hf & Hn & Hin).
    { apply Hall. left. }
    destruct IH as (ss & Hss & Hnames & Hsub).
    { intros c Hc. apply Hall. by right. }
    rewrite Hf, Hss. simpl. exists (s :: ss). split_and!; [done | simpl; by rewrite Hn, Hnames |].
    intros s' [<- | Hs']; auto.
Qed.

(** X17. After a successful [fit] (of anything but the empty string as
    single name), [transform] on a non-empty frame without repeated
    column names that has every requested column returns columns of
    that frame, named as requested and in the requested order, with the
    frame's index; [get_feature_names] gives these names. *)
Theorem ColumnSelector_selects_in_order self df df' :
  returns (ColumnSelector.fit (PyDataFrame df)) self tt →
  ColumnSelector.columns self ≠ Name "" →
  DataFrame.empty df' = false →
  NoDup (DataFrame.columns df') →
  (∀ c, c ∈ as_list (ColumnSelector.columns self) → c ∈ DataFrame.columns df') →
  ∃ ss,
    returns (ColumnSelector.transform (PyDataFrame df'))
            (snd (ColumnSelector.fit (PyDataFrame df) self))
            (PyDataFrame (DataFrame.mk (DataFrame.index df') ss))
    ∧ map Series.name ss = as_list (ColumnSelector.columns self)
    ∧ (∀ s, In s ss → In s (DataFrame.data df'))
    ∧ returns ColumnSelector.get_feature_names
              (snd (ColumnSelector.fit (PyDataFrame df) self))
              (map Series.name ss).
Proof.
  intros Hfit Hname Hne' Hnd Hall.
  apply ColumnSelector_fit_iff in Hfit as (Hnil & _).
  destruct (getitem_list_unique df' _ Hnd Hall) as (ss & Hss & Hnames & Hsub).
  exists ss. unfold returns. rewrite ColumnSelector_fit_state.
  assert (Htruthy : truthy (ColumnSelector.columns self) = true).
  { destruct (ColumnSelector.columns self) as [s | l]; simpl in *.
    - destruct (String.eqb_spec s ""); [congruence | done].
    - by destruct l. }
  split_and!; [| done | done | by rewrite Hnames].
  unfold ColumnSelector.transform. run_method.
  by rewrite Hne', Htruthy, Hss.
Qed.

(** ** PandasTypeSelector *)

Lemma scalar_eqb_refl x : scalar_eqb x x = true.
Proof.
  destruct x; simpl.
  - apply Z.eqb_refl.
  - apply Qeq_bool_iff. reflexivity.
  - by destruct b.
  - apply String.eqb_refl.
  - apply Z.eqb_refl.
Qed.

Lemma dtype_eqb_refl d : dtype_eqb d d = true.
Proof.
  destruct d as [t | cs o | e]; simpl; [| | by apply bool_decide_eq_true_2].
  - by apply bool_decide_eq_true_2.
  - rewrite eqb_reflx. simpl.
    assert (Hmem : forallb (fun x => scalar_mem x cs) cs = true).
    { apply forallb_forall. intros x Hx. unfold scalar_mem.
      apply existsb_exists. exists x. split; [done | apply scalar_eqb_refl]. }
    destruct o; [| by rewrite Hmem].
    induction cs as [| c cs IH]; simpl; [done |].
    rewrite scalar_eqb_refl. simpl. apply IH.
    apply forallb_forall. intros x Hx. unfold scalar_mem.
    apply existsb_exists. exists x. split; [done | apply scalar_eqb_refl].
Qed.

Lemma dtypes_ne_refl types :
  dtypes_ne types types = Ok (map (fun _ => false) types).
Proof.
  unfold dtypes_ne. rewrite bool_decide_eq_true_2 by done. f_equal.
  induction types as [| [c d] types IH]; simpl; [done |].
  by rewrite dtype_eqb_refl, IH.
Qed.

Lemma any_all_false {A} (l : list A) : any (map (fun _ => false) l) = false.
Proof. unfold any. induction l; simpl; done. Qed.

(** Equal storage types are matched by the same selectors. *)
Lemma selector_matches_eqb d1 d2 sel :
  dtype_eqb d1 d2 = true → selector_matches d1 sel = selector_matches d2 sel.
Proof.
  destruct d1 as [t1 | c1 o1 | e1], d2 as [t2 | c2 o2 | e2]; simpl; try discriminate.
  - intros H. apply bool_decide_eq_true in H. by subst.
  - done.
  - intros H. apply bool_decide_eq_true in H. by subst.
Qed.

Lemma selected_by_eqb include exclude s1 s2 :
  dtype_eqb (Series.dtype s1) (Series.dtype s2) = true →
  selected_by include exclude s1 = selected_by include exclude s2.
Proof.
  intros H. unfold selected_by.
  assert (He : ∀ l, existsb (selector_matches (Series.dtype s1)) l
                    = existsb (selector_matches (Series.dtype s2)) l).
  { induction l as [| sel l IH]; simpl; [done |].
    by rewrite (selector_matches_eqb _ _ sel H), IH. }
  by rewrite !He.
Qed.

(** Frames with the same labels and pairwise equal storage types have
    the same selected names. *)
Lemma selected_names_agree include exclude (a b : list Series.t) mask :
  dtypes_ne (map (fun s => (Series.name s, Series.dtype s)) a)
            (map (fun s => (Series.name s, Series.dtype s)) b) = Ok mask →
  any mask = false →
  map Series.name (List.filter (selected_by include exclude) a)
  = map Series.name (List.filter (selected_by include exclude) b).
Proof.
  unfold dtypes_ne. case_bool_decide as Hlabels; [| discriminate].
  intros [= <-]. revert b Hlabels.
  induction a as [| s a IH]; intros [| s' b]; simpl; try done.
  intros [= Hn Hlabels] Hany. unfold any in Hany. simpl in Hany.
  apply orb_false_elim in Hany as [Hd Hany]. apply negb_false_iff in Hd.
  rewrite (selected_by_eqb _ _ s s' Hd).
  destruct (selected_by include exclude s'); simpl; rewrite (IH b Hlabels Hany);
    [by rewrite Hn | done].
Qed.

Lemma overlap_false_iff (include exclude : list type_selector) :
  existsb (fun i => bool_decide (i ∈ exclude)) include = false
  ↔ ∀ sel, sel ∈ include → sel ∉ exclude.
Proof.
  induction include as [| i include IH]; simpl.
  - split; [intros _ sel H; by apply elem_of_nil in H | done].
  - rewrite orb_false_iff, IH, bool_decide_eq_false. split.
    + intros [Hi Hrest] sel Hsel. apply elem_of_cons in Hsel as [-> | Hsel]; auto.
    + intros H. split; [apply H; left | intros sel Hsel; apply H; by right].
Qed.

Lemma no_string_selector_iff (include exclude : list type_selector) :
  existsb is_string_selector include || existsb is_string_selector exclude = false
  ↔ ∀ sel, sel ∈ include ++ exclude → is_string_selector sel = false.
Proof.
  rewrite <- existsb_app.
  induction (include ++ exclude) as [| i l IH]; simpl.
  - split; [intros _ sel H; by apply elem_of_nil in H | done].
  - rewrite orb_false_iff, IH. split.
    + intros [Hi Hrest] sel Hsel. apply elem_of_cons in Hsel as [-> | Hsel]; auto.
    + intros H. split; [apply H; left | intros sel Hsel; apply H; by right].
Qed.

(** [select_dtypes] by cases on its arguments. *)
Lemma select_dtypes_spec df (include exclude : list type_selector) :
  DataFrame.select_dtypes df include exclude
  = if bool_decide (include = [] ∧ exclude = [])
    then Raise (exn ValueError select_dtypes_empty)
    else if existsb is_string_selector include || existsb is_string_selector exclude
    then Raise (exn TypeError string_dtypes_not_allowed)
    else if existsb (fun i => bool_decide (i ∈ exclude)) include
    then Raise (exn ValueError select_dtypes_overlap)
    else Ok (DataFrame.mk (DataFrame.index df)
               (List.filter (selected_by include exclude) (DataFrame.data df))).
Proof.
  unfold DataFrame.select_dtypes.
  destruct include as [| i include], exclude as [| e exclude];
    try rewrite bool_decide_eq_true_2 by done;
    try (rewrite bool_decide_eq_false_2 by (intros [? ?]; discriminate));
    reflexivity.
Qed.

Opaque DataFrame.select_dtypes.

(** What [fit] does on a non-empty frame. *)
Lemma PandasTypeSelector_fit_frame self df :
  DataFrame.empty df = false →
  PandasTypeSelector.fit (PyDataFrame df) self
  = match DataFrame.select_dtypes df (PandasTypeSelector.include self)
                                  (PandasTypeSelector.exclude self) with
    | Raise e =>
        (Raise e,
         PandasTypeSelector.mk (PandasTypeSelector.include self)
           (PandasTypeSelector.exclude self) (Some (DataFrame.dtypes df))
           (PandasTypeSelector.feature_names_ self))
    | Ok sel =>
        ((if Nat.eqb (length (DataFrame.columns sel)) 0
          then Raise (exn ValueError types_result_in_empty)
          else Ok tt),
         PandasTypeSelector.mk (PandasTypeSelector.include self)
           (PandasTypeSelector.exclude self) (Some (DataFrame.dtypes df))
           (Some (DataFrame.columns sel)))
    end.
Proof.
  intros Hne. unfold PandasTypeSelector.fit. run_method. rewrite Hne. simpl.
  destruct (DataFrame.select_dtypes df _ _) as [sel | e]; simpl; [| done].
  by destruct (length (DataFrame.columns sel) =? 0)%nat.
Qed.

Transparent DataFrame.select_dtypes.

(** X18. [PandasTypeSelector.fit] returns exactly when the input is a
    non-empty DataFrame, [include] and [exclude] are not both empty,
    name none of numpy's string types ([np.str_], [np.bytes_]) and share
    no selector, and some column is selected.  In particular a selector
    constructed with neither can never be fitted. *)
Theorem PandasTypeSelector_fit_iff self X :
  returns (PandasTypeSelector.fit X) self tt ↔
  ∃ df, X = PyDataFrame df
        ∧ DataFrame.empty df = false
        ∧ (PandasTypeSelector.include self ≠ [] ∨ PandasTypeSelector.exclude self ≠ [])
        ∧ (∀ sel, sel ∈ PandasTypeSelector.include self ++ PandasTypeSelector.exclude self →
                  is_string_selector sel = false)
        ∧ (∀ sel, sel ∈ PandasTypeSelector.include self →
                  sel ∉ PandasTypeSelector.exclude self)
        ∧ ∃ s, In s (DataFrame.data df)
               ∧ selected_by (PandasTypeSelector.include self)
                             (PandasTypeSelector.exclude self) s = true.
Proof.
  unfold returns.
  destruct X as [df | shape data | type_name];
    [| split; [discriminate | intros (df & ? & _); discriminate] ..].
  destruct (DataFrame.empty df) eqn:Hne.
  { split; [| intros (df' & [= <-] & ? & _); congruence].
    unfold PandasTypeSelector.fit. run_method. rewrite Hne. discriminate. }
  rewrite (PandasTypeSelector_fit_frame self df Hne), select_dtypes_spec.
  set (include := PandasTypeSelector.include self).
  set (exclude := PandasTypeSelector.exclude self).
  case_bool_decide as Hboth; simpl.
  { split; [discriminate |]. intros (df' & _ & _ & [H | H] & _); by destruct Hboth. }
  destruct (existsb is_string_selector include || existsb is_string_selector exclude)
    eqn:Hstr; simpl.
  { split; [discriminate |]. intros (df' & _ & _ & _ & Hnostr & _).
    apply no_string_selector_iff in Hnostr.
    rewrite Hstr in Hnostr. discriminate Hnostr. }
  destruct (existsb (fun i => bool_decide (i ∈ exclude)) include) eqn:Hover; simpl.
  { split; [discriminate |]. intros (df' & _ & _ & _ & _ & Hdisj & _).
    apply overlap_false_iff in Hdisj. congruence. }
  unfold DataFrame.columns. simpl. rewrite length_map.
  destruct (List.filter (selected_by include exclude) (DataFrame.data df))
    as [| s ss] eqn:Hsel; simpl.
  - split; [discriminate |]. intros (df' & [= <-] & _ & _ & _ & _ & s & Hs & Hsb).
    assert (Hin : In s (List.filter (selected_by include exclude) (DataFrame.data df)))
      by (apply filter_In; done).
    rewrite Hsel in Hin. destruct Hin.
  - split; [| done]. intros _. exists df. split_and!; [done | done | | | |].
    + destruct include, exclude; auto; by destruct Hboth.
    + by apply no_string_selector_iff.
    + by apply overlap_false_iff.
    + assert (Hin : In s (List.filter (selected_by include exclude) (DataFrame.data df)))
        by (rewrite Hsel; left; done).
      apply filter_In in Hin. eauto.
Qed.

(** A successful [fit] leaves the selectors, the frame's storage types
    and the selected names on the instance. *)
Lemma PandasTypeSelector_fit_state self0 self df :
  PandasTypeSelector.fit (PyDataFrame df) self0 = (Ok tt, self) →
  DataFrame.empty df = false
  ∧ DataFrame.select_dtypes df (PandasTypeSelector.include self0)
                               (PandasTypeSelector.exclude self0)
    = Ok (DataFrame.mk (DataFrame.index df)
            (List.filter (selected_by (PandasTypeSelector.include self0)
                                      (PandasTypeSelector.exclude self0))
                         (DataFrame.data df)))
  ∧ self = PandasTypeSelector.mk (PandasTypeSelector.include self0)
             (PandasTypeSelector.exclude self0) (Some (DataFrame.dtypes df))
             (Some (map Series.name
                      (List.filter (selected_by (PandasTypeSelector.include self0)
                                                (PandasTypeSelector.exclude self0))
                                   (DataFrame.data df)))).
Proof.
  intros Hfit.
  destruct (DataFrame.empty df) eqn:Hne.
  { revert Hfit. unfold PandasTypeSelector.fit. run_method. rewrite Hne. discriminate. }
  rewrite (PandasTypeSelector_fit_frame self0 df Hne) in Hfit.
  rewrite select_dtypes_spec in *.
  destruct (bool_decide _); [discriminate Hfit |].
  destruct (existsb is_string_selector _ || existsb is_string_selector _);
    [discriminate Hfit |].
  destruct (existsb _ _); [discriminate Hfit |].
  destruct (length _ =? 0)%nat; [discriminate Hfit |].
  injection Hfit as <-. done.
Qed.

(** X19. After a successful [fit], whenever [transform] returns, its
    input was a DataFrame with the column labels of the fit-time frame,
    and the result is a frame with the input's index whose columns are
    columns of the input, named exactly as [feature_names_] records. *)
Theorem PandasTypeSelector_transform_columns self0 self F X Y :
  PandasTypeSelector.fit (PyDataFrame F) self0 = (Ok tt, self) →
  returns (PandasTypeSelector.transform X) self Y →
  ∃ dfX dfY, X = PyDataFrame dfX ∧ Y = PyDataFrame dfY
             ∧ DataFrame.columns dfX = DataFrame.columns F
             ∧ DataFrame.index dfY = DataFrame.index dfX
             ∧ PandasTypeSelector.feature_names_ self = Some (DataFrame.columns dfY)
             ∧ ∀ s, In s (DataFrame.data dfY) → In s (DataFrame.data dfX).
Proof.
  intros Hfit. apply PandasTypeSelector_fit_state in Hfit as (HneF & HselF & ->).
  set (include := PandasTypeSelector.include self0) in *.
  set (exclude := PandasTypeSelector.exclude self0) in *.
  unfold returns, PandasTypeSelector.transform, PandasTypeSelector.check_dtypes.
  run_method.
  destruct X as [dfX | shape data | type_name]; simpl; [| discriminate ..].
  destruct (dtypes_ne (DataFrame.dtypes F) (DataFrame.dtypes dfX)) as [mask | e] eqn:Hne;
    simpl; [| by destruct (is_ValueError (exn_class e))].
  destruct (any mask) eqn:Hany; simpl; [discriminate |].
  destruct (DataFrame.empty dfX); simpl; [discriminate |].
  rewrite select_dtypes_spec.
  case_bool_decide; simpl; [discriminate |].
  destruct (existsb is_string_selector include || existsb is_string_selector exclude);
    simpl; [discriminate |].
  destruct (existsb _ include); simpl; [discriminate |].
  intros [= <-]. eexists _, _. split_and!; [done | done | | done | |].
  - unfold dtypes_ne in Hne. case_bool_decide as Hl; [| discriminate].
    by rewrite !dtypes_labels in Hl.
  - f_equal. unfold DataFrame.columns. simpl.
    by apply (selected_names_agree include exclude _ _ mask).
  - simpl. intros s Hs. by apply filter_In in Hs as [Hs _].
Qed.

(** X20. After a successful [fit], [transform] on a non-empty frame
    with the labels and storage types of the fit-time frame (that frame
    itself, for one) returns its selected columns, and
    [get_feature_names] gives the names selected at fit time. *)
Theorem PandasTypeSelector_transform_same_types self0 self F X :
  PandasTypeSelector.fit (PyDataFrame F) self0 = (Ok tt, self) →
  DataFrame.empty X = false →
  DataFrame.dtypes X = DataFrame.dtypes F →
  returns (PandasTypeSelector.transform (PyDataFrame X)) self
          (PyDataFrame
             (DataFrame.mk (DataFrame.index X)
                (List.filter (selected_by (PandasTypeSelector.include self0)
                                          (PandasTypeSelector.exclude self0))
                             (DataFrame.data X))))
  ∧ returns PandasTypeSelector.get_feature_names self
            (map Series.name
               (List.filter (selected_by (PandasTypeSelector.include self0)
                                         (PandasTypeSelector.exclude self0))
                            (DataFrame.data F))).
Proof.
  intros Hfit HneX Htypes.
  apply PandasTypeSelector_fit_state in Hfit as (HneF & HselF & ->).
  rewrite select_dtypes_spec in HselF.
  unfold returns. split; [| done].
  unfold PandasTypeSelector.transform, PandasTypeSelector.check_dtypes. run_method.
  rewrite Htypes, dtypes_ne_refl. simpl. rewrite any_all_false. simpl.
  rewrite HneX. simpl. rewrite select_dtypes_spec.
  case_bool_decide; [discriminate |].
  destruct (existsb is_string_selector _ || existsb is_string_selector _);
    [discriminate |].
  destruct (existsb _ _); [discriminate | done].
Qed.

(** X21. When selectors that [select_dtypes] accepts (not both empty,
    none of them one of numpy's string types, none shared) match no
    column of a non-empty frame, [fit] fails with the empty-result
    error, but only after it has set [X_dtypes_] and [feature_names_]:
    the instance passes [check_is_fitted], and [transform] on that frame
    returns a frame without columns instead of the not-fitted error. *)
Theorem PandasTypeSelector_fit_nothing_selected self df :
  DataFrame.empty df = false →
  (PandasTypeSelector.include self ≠ [] ∨ PandasTypeSelector.exclude self ≠ []) →
  (∀ sel, sel ∈ PandasTypeSelector.include self ++ PandasTypeSelector.exclude self →
          is_string_selector sel = false) →
  (∀ sel, sel ∈ PandasTypeSelector.include self → sel ∉ PandasTypeSelector.exclude self) →
  (∀ s, In s (DataFrame.data df) →
        selected_by (PandasTypeSelector.include self) (PandasTypeSelector.exclude self) s
        = false) →
  fails_with (PandasTypeSelector.fit (PyDataFrame df)) self
             (exn ValueError types_result_in_empty)
  ∧ PandasTypeSelector.feature_names_ (snd (PandasTypeSelector.fit (PyDataFrame df) self))
    = Some []
  ∧ returns (PandasTypeSelector.transform (PyDataFrame df))
            (snd (PandasTypeSelector.fit (PyDataFrame df) self))
            (PyDataFrame (DataFrame.mk (DataFrame.index df) [])).
Proof.
  intros Hne Hsome Hnostr Hdisj Hnone.
  assert (Hsel : List.filter (selected_by (PandasTypeSelector.include self)
                                          (PandasTypeSelector.exclude self))
                             (DataFrame.data df) = []).
  { induction (DataFrame.data df) as [| s data IH]; simpl; [done |].
    rewrite (Hnone s) by (by left). apply IH. intros s' Hs'. apply Hnone. by right. }
  assert (Hspec : DataFrame.select_dtypes df (PandasTypeSelector.include self)
                                          (PandasTypeSelector.exclude self)
                  = Ok (DataFrame.mk (DataFrame.index df) [])).
  { rewrite select_dtypes_spec.
    rewrite bool_decide_eq_false_2 by (intros [? ?]; destruct Hsome; done).
    rewrite (proj2 (no_string_selector_iff _ _) Hnostr).
    rewrite (proj2 (overlap_false_iff _ _) Hdisj). by rewrite Hsel. }
  unfold fails_with, returns.
  rewrite (PandasTypeSelector_fit_frame self df Hne), Hspec. simpl.
  split_and!; [done | done |].
  unfold PandasTypeSelector.transform, PandasTypeSelector.check_dtypes. run_method.
  rewrite dtypes_ne_refl. simpl. rewrite any_all_false. simpl.
  rewrite Hne. simpl. by rewrite Hspec.
Qed.

(** ** IdentityTransformer *)

(** X22. For inputs that pass validation (or with validation off):
    [fit] returns and [shape_] then gives the shape fitted on;
    [transform] returns the validated input unchanged when it has as
    many columns as the fit-time input, whatever its number of rows, and
    fails with the shape-mismatch error naming both counts otherwise. *)
Theorem IdentityTransformer_fit_then_transform `{sklearn_utils}
    self X0 A0 X A (r0 c0 r c : nat) :
  validated (IdentityTransformer.check_X self) X0 = Ok A0 →
  py_shape A0 = Ok (r0, c0) →
  validated (IdentityTransformer.check_X self) X = Ok A →
  py_shape A = Ok (r, c) →
  returns (IdentityTransformer.fit X0) self tt
  ∧ returns IdentityTransformer.shape_ (snd (IdentityTransformer.fit X0 self)) (r0, c0)
  ∧ (c = c0 →
     returns (IdentityTransformer.transform X) (snd (IdentityTransformer.fit X0 self)) A)
  ∧ (c ≠ c0 →
     fails_with (IdentityTransformer.transform X) (snd (IdentityTransformer.fit X0 self))
                (exn ValueError (wrong_shape c0 c))).
Proof.
  unfold validated. intros HA0 Hs0 HA Hs.
  assert (Hfit : IdentityTransformer.fit X0 self
                 = (Ok tt, IdentityTransformer.mk (IdentityTransformer.check_X self)
                             (Some r0) (Some c0))).
  { unfold IdentityTransformer.fit. run_method.
    destruct (IdentityTransformer.check_X self) eqn:Hflag;
      [rewrite HA0 | injection HA0 as ->]; simpl; rewrite Hs0; simpl;
      by rewrite Hflag. }
  unfold returns, fails_with. rewrite Hfit. simpl. split_and!; [done | done | |].
  - intros ->. unfold IdentityTransformer.transform. run_method.
    destruct (IdentityTransformer.check_X self); [rewrite HA | injection HA as ->];
      simpl; rewrite Hs; simpl; by rewrite Nat.eqb_refl.
  - intros Hc. unfold IdentityTransformer.transform. run_method.
    destruct (IdentityTransformer.check_X self); [rewrite HA | injection HA as ->];
      simpl; rewrite Hs; simpl;
      by destruct (Nat.eqb_spec c c0).
Qed.

(** ** The properties above at sample inputs *)

Lemma duplicate_rows_repeat_an_earlier_row_witness :
  DatasetDescriptor.build_from_dataset Samples.repeated_rows_frame []
    = Ok Samples.repeated_rows_descriptor
  ∧ (DatasetDescriptor.row_count Samples.repeated_rows_descriptor
       = Z.of_nat (length (DataFrame.index Samples.repeated_rows_frame))
     ∧ (In 2%Z (DatasetDescriptor.duplicate_rows Samples.repeated_rows_descriptor) ↔
        ∃ i j, nth_error (DataFrame.index Samples.repeated_rows_frame) i = Some 2%Z
               ∧ (j < i)%nat
               ∧ DataFrame.cells_eqb (DataFrame.row Samples.repeated_rows_frame i)
                                     (DataFrame.row Samples.repeated_rows_frame j) = true)).
Proof.
  split; [vm_compute; reflexivity |].
  apply (duplicate_rows_repeat_an_earlier_row Samples.repeated_rows_frame []
           Samples.repeated_rows_descriptor 2%Z).
  vm_compute; reflexivity.
Defined.

Lemma dataset_build_duplicate_columns_nil_witness :
  DatasetDescriptor.build_from_dataset Samples.mixed_frame ["id"]
    = Ok Samples.mixed_descriptor
  ∧ (NoDup (DataFrame.columns Samples.mixed_frame)
     ∧ DatasetDescriptor.duplicate_columns Samples.mixed_descriptor = []).
Proof.
  split; [vm_compute; reflexivity |].
  apply (dataset_build_duplicate_columns_nil Samples.mixed_frame ["id"]).
  vm_compute; reflexivity.
Defined.

Lemma ColumnDropper_transform_drops_witness :
  returns (ColumnDropper.fit (PyDataFrame Samples.mixed_frame)) Samples.s_dropper tt
  ∧ DataFrame.empty Samples.retyped_frame = false
  ∧ (∀ c, c ∈ as_list (ColumnDropper.columns Samples.s_dropper) →
          c ∈ DataFrame.columns Samples.retyped_frame)
  ∧ (returns (ColumnDropper.transform (PyDataFrame Samples.retyped_frame))
             (snd (ColumnDropper.fit (PyDataFrame Samples.mixed_frame) Samples.s_dropper))
             (PyDataFrame
                (DataFrame.mk (DataFrame.index Samples.retyped_frame)
                   (List.filter (kept_by (as_list (ColumnDropper.columns Samples.s_dropper)))
                                (DataFrame.data Samples.retyped_frame))))
     ∧ returns ColumnDropper.get_feature_names
               (snd (ColumnDropper.fit (PyDataFrame Samples.mixed_frame) Samples.s_dropper))
               (map Series.name
                  (List.filter (kept_by (as_list (ColumnDropper.columns Samples.s_dropper)))
                               (DataFrame.data Samples.mixed_frame)))).
Proof.
  split; [reflexivity |]. split; [reflexivity |]. split; [each_member |].
  apply (ColumnDropper_transform_drops Samples.s_dropper Samples.mixed_frame
           Samples.retyped_frame); [reflexivity | reflexivity | each_member].
Defined.

Example s_dropper_leaves_id :
  returns (ColumnDropper.transform (PyDataFrame Samples.retyped_frame))
          (snd (ColumnDropper.fit (PyDataFrame Samples.mixed_frame) Samples.s_dropper))
          (PyDataFrame (DataFrame.mk [0; 1; 2]%Z [Samples.id_float_column])).
Proof. reflexivity. Qed.

Lemma ColumnDropper_fit_all_dropped_witness :
  DataFrame.empty Samples.mixed_frame = false
  ∧ (∀ c, c ∈ as_list (ColumnDropper.columns Samples.all_dropper) →
          c ∈ DataFrame.columns Samples.mixed_frame)
  ∧ (∀ c, c ∈ DataFrame.columns Samples.mixed_frame →
          c ∈ as_list (ColumnDropper.columns Samples.all_dropper))
  ∧ (fails_with (ColumnDropper.fit (PyDataFrame Samples.mixed_frame)) Samples.all_dropper
                (exn ValueError
                   (dropping_results_in_empty
                      (as_list (ColumnDropper.columns Samples.all_dropper))))
     ∧ ColumnDropper.feature_names_
         (snd (ColumnDropper.fit (PyDataFrame Samples.mixed_frame) Samples.all_dropper))
       = Some []
     ∧ returns (ColumnDropper.transform (PyDataFrame Samples.mixed_frame))
               (snd (ColumnDropper.fit (PyDataFrame Samples.mixed_frame)
                                       Samples.all_dropper))
               (PyDataFrame (DataFrame.mk (DataFrame.index Samples.mixed_frame) []))).
Proof.
  split; [reflexivity |]. split; [each_member |]. split; [each_member |].
  apply (ColumnDropper_fit_all_dropped Samples.all_dropper Samples.mixed_frame);
    [reflexivity | each_member | each_member].
Defined.

Lemma fit_missing_columns_witness :
  DataFrame.empty Samples.mixed_frame = false
  ∧ (∃ c, c ∈ as_list (Names ["zz"; "id"]) ∧ c ∉ DataFrame.columns Samples.mixed_frame)
  ∧ ∃ missing,
      (∀ c, c ∈ missing ↔
            c ∈ as_list (Names ["zz"; "id"]) ∧ c ∉ DataFrame.columns Samples.mixed_frame)
      ∧ fails_with (ColumnDropper.fit (PyDataFrame Samples.mixed_frame))
                   (ColumnDropper.__init__ (Names ["zz"; "id"]))
                   (exn KeyError (not_in_DataFrame missing))
      ∧ fails_with (ColumnSelector.fit (PyDataFrame Samples.mixed_frame))
                   (ColumnSelector.__init__ (Names ["zz"; "id"]))
                   (exn KeyError (not_in_DataFrame missing))
      ∧ fails_with (ColumnDropper.transform (PyDataFrame Samples.mixed_frame))
                   (snd (ColumnDropper.fit (PyDataFrame Samples.mixed_frame)
                           (ColumnDropper.__init__ (Names ["zz"; "id"]))))
                   NotFitted.
Proof.
  assert (H : ∃ c, c ∈ as_list (Names ["zz"; "id"])
                   ∧ c ∉ DataFrame.columns Samples.mixed_frame).
  { exists "zz". split; [closed_elem | intros H; closed_elem]. }
  split; [reflexivity |]. split; [exact H |].
  exact (fit_missing_columns (Names ["zz"; "id"]) Samples.mixed_frame eq_refl H).
Defined.

Lemma ColumnSelector_selects_in_order_witness :
  returns (ColumnSelector.fit (PyDataFrame Samples.mixed_frame)) Samples.s_id_selector tt
  ∧ ColumnSelector.columns Samples.s_id_selector ≠ Name ""
  ∧ DataFrame.empty Samples.retyped_frame = false
  ∧ NoDup (DataFrame.columns Samples.retyped_frame)
  ∧ (∀ c, c ∈ as_list (ColumnSelector.columns Samples.s_id_selector) →
          c ∈ DataFrame.columns Samples.retyped_frame)
  ∧ ∃ ss,
      returns (ColumnSelector.transform (PyDataFrame Samples.retyped_frame))
              (snd (ColumnSelector.fit (PyDataFrame Samples.mixed_frame)
                                       Samples.s_id_selector))
              (PyDataFrame (DataFrame.mk (DataFrame.index Samples.retyped_frame) ss))
      ∧ map Series.name ss = as_list (ColumnSelector.columns Samples.s_id_selector)
      ∧ (∀ s, In s ss → In s (DataFrame.data Samples.retyped_frame))
      ∧ returns ColumnSelector.get_feature_names
                (snd (ColumnSelector.fit (PyDataFrame Samples.mixed_frame)
                                         Samples.s_id_selector))
                (map Series.name ss).
Proof.
  assert (Hnd : NoDup (DataFrame.columns Samples.retyped_frame))
    by (apply (bool_decide_unpack _); vm_compute; exact I).
  split; [reflexivity |]. split; [discriminate |]. split; [reflexivity |].
  split; [exact Hnd |]. split; [each_member |].
  apply (ColumnSelector_selects_in_order Samples.s_id_selector Samples.mixed_frame
           Samples.retyped_frame);
    [reflexivity | discriminate | reflexivity | exact Hnd | each_member].
Defined.

Example s_id_selector_reorders :
  returns (ColumnSelector.transform (PyDataFrame Samples.retyped_frame))
          (snd (ColumnSelector.fit (PyDataFrame Samples.mixed_frame) Samples.s_id_selector))
          (PyDataFrame
             (DataFrame.mk [0; 1; 2]%Z [Samples.s_column; Samples.id_float_column])).
Proof. reflexivity. Qed.

(** The single name [""] is false as a truth value: fitted on a frame
    with a column of that name, [transform] returns the whole frame. *)
Example empty_name_selects_everything :
  let df := DataFrame.mk [0]%Z [Series.mk "" (NpDtype np.int64) [Some (VInt 1)];
                                Series.mk "b" (NpDtype np.int64) [Some (VInt 2)]] in
  ColumnSelector.fit (PyDataFrame df) (ColumnSelector.__init__ (Name ""))
    = (Ok tt, ColumnSelector.mk (Name "") (Some [""]))
  ∧ returns (ColumnSelector.transform (PyDataFrame df))
            (ColumnSelector.mk (Name "") (Some [""])) (PyDataFrame df).
Proof. split; reflexivity. Qed.

Lemma PandasTypeSelector_transform_columns_witness :
  let Y := PyDataFrame (DataFrame.mk [0; 1; 2]%Z [Samples.id_column]) in
  PandasTypeSelector.fit (PyDataFrame Samples.mixed_frame) Samples.number_selector
    = (Ok tt, Samples.fitted_number_selector)
  ∧ returns (PandasTypeSelector.transform (PyDataFrame Samples.mixed_frame))
            Samples.fitted_number_selector Y
  ∧ ∃ dfX dfY,
      PyDataFrame Samples.mixed_frame = PyDataFrame dfX ∧ Y = PyDataFrame dfY
      ∧ DataFrame.columns dfX = DataFrame.columns Samples.mixed_frame
      ∧ DataFrame.index dfY = DataFrame.index dfX
      ∧ PandasTypeSelector.feature_names_ Samples.fitted_number_selector
        = Some (DataFrame.columns dfY)
      ∧ ∀ s, In s (DataFrame.data dfY) → In s (DataFrame.data dfX).
Proof.
  intros Y. split; [reflexivity |]. split; [reflexivity |].
  apply (PandasTypeSelector_transform_columns Samples.number_selector
           Samples.fitted_number_selector Samples.mixed_frame
           (PyDataFrame Samples.mixed_frame) Y); reflexivity.
Defined.

Lemma PandasTypeSelector_transform_same_types_witness :
  PandasTypeSelector.fit (PyDataFrame Samples.mixed_frame) Samples.number_selector
    = (Ok tt, Samples.fitted_number_selector)
  ∧ DataFrame.empty Samples.mixed_frame = false
  ∧ DataFrame.dtypes Samples.mixed_frame = DataFrame.dtypes Samples.mixed_frame
  ∧ (returns (PandasTypeSelector.transform (PyDataFrame Samples.mixed_frame))
             Samples.fitted_number_selector
             (PyDataFrame
                (DataFrame.mk (DataFrame.index Samples.mixed_frame)
                   (List.filter
                      (selected_by (PandasTypeSelector.include Samples.number_selector)
                                   (PandasTypeSelector.exclude Samples.number_selector))
                      (DataFrame.data Samples.mixed_frame))))
     ∧ returns PandasTypeSelector.get_feature_names Samples.fitted_number_selector
               (map Series.name
                  (List.filter
                     (selected_by (PandasTypeSelector.include Samples.number_selector)
                                  (PandasTypeSelector.exclude Samples.number_selector))
                     (DataFrame.data Samples.mixed_frame)))).
Proof.
  repeat (split; [reflexivity |]).
  apply (PandasTypeSelector_transform_same_types Samples.number_selector
           Samples.fitted_number_selector Samples.mixed_frame Samples.mixed_frame);
    reflexivity.
Defined.

Lemma PandasTypeSelector_fit_nothing_selected_witness :
  let self := Samples.datetime_selector in
  let df := Samples.mixed_frame in
  DataFrame.empty df = false
  ∧ (PandasTypeSelector.include self ≠ [] ∨ PandasTypeSelector.exclude self ≠ [])
  ∧ (∀ sel, sel ∈ PandasTypeSelector.include self ++ PandasTypeSelector.exclude self →
            is_string_selector sel = false)
  ∧ (∀ sel, sel ∈ PandasTypeSelector.include self → sel ∉ PandasTypeSelector.exclude self)
  ∧ (∀ s, In s (DataFrame.data df) →
          selected_by (PandasTypeSelector.include self) (PandasTypeSelector.exclude self) s
          = false)
  ∧ (fails_with (PandasTypeSelector.fit (PyDataFrame df)) self
                (exn ValueError types_result_in_empty)
     ∧ PandasTypeSelector.feature_names_ (snd (PandasTypeSelector.fit (PyDataFrame df) self))
       = Some []
     ∧ returns (PandasTypeSelector.transform (PyDataFrame df))
               (snd (PandasTypeSelector.fit (PyDataFrame df) self))
               (PyDataFrame (DataFrame.mk (DataFrame.index df) []))).
Proof.
  intros self df.
  assert (H1 : PandasTypeSelector.include self ≠ [] ∨ PandasTypeSelector.exclude self ≠ [])
    by (left; discriminate).
  assert (H0 : ∀ sel, sel ∈ PandasTypeSelector.include self ++ PandasTypeSelector.exclude self →
                      is_string_selector sel = false).
  { intros sel H. simpl in H.
    apply elem_of_cons in H as [-> | H]; [reflexivity | by apply elem_of_nil in H]. }
  assert (H2 : ∀ sel, sel ∈ PandasTypeSelector.include self →
                      sel ∉ PandasTypeSelector.exclude self)
    by (intros sel _ H; by apply elem_of_nil in H).
  assert (H3 : ∀ s, In s (DataFrame.data df) →
                    selected_by (PandasTypeSelector.include self)
                                (PandasTypeSelector.exclude self) s = false)
    by (intros s [<- | [<- | []]]; reflexivity).
  split; [reflexivity |]. split; [exact H1 |]. split; [exact H0 |].
  split; [exact H2 |]. split; [exact H3 |].
  exact (PandasTypeSelector_fit_nothing_selected self df eq_refl H1 H0 H2 H3).
Defined.

(** A selector of [np.str_] is refused by [select_dtypes]: [fit] raises
    [TypeError] with [X_dtypes_] set and [feature_names_] not. *)
Example string_selector_is_refused :
  PandasTypeSelector.fit (PyDataFrame Samples.mixed_frame)
    (PandasTypeSelector.__init__ [SelClass (np.Concrete np.str_)] [])
  = (Raise (exn TypeError string_dtypes_not_allowed),
     PandasTypeSelector.mk [SelClass (np.Concrete np.str_)] []
       (Some (DataFrame.dtypes Samples.mixed_frame)) None).
Proof. reflexivity. Qed.

(** [np.number] selects a nullable integer column and no nullable
    boolean one. *)
Example number_selects_nullable_integers :
  selector_matches (ExtensionDtype Int64Dtype) (SelClass (np.Abstract np.number)) = true
  ∧ selector_matches (ExtensionDtype BooleanDtype) (SelClass (np.Abstract np.number)) = false.
Proof. split; reflexivity. Qed.

Lemma IdentityTransformer_fit_then_transform_witness :
  let self := IdentityTransformer.__init__ false in
  let fitted := snd (@IdentityTransformer.fit Samples.lenient Samples.array_2x2 self) in
  @validated Samples.lenient (IdentityTransformer.check_X self) Samples.array_2x2
    = Ok Samples.array_2x2
  ∧ py_shape Samples.array_2x2 = Ok (2, 2)%nat
  ∧ @validated Samples.lenient (IdentityTransformer.check_X self) Samples.array_1x3
    = Ok Samples.array_1x3
  ∧ py_shape Samples.array_1x3 = Ok (1, 3)%nat
  ∧ (returns (@IdentityTransformer.fit Samples.lenient Samples.array_2x2) self tt
     ∧ returns IdentityTransformer.shape_ fitted (2, 2)%nat
     ∧ (3 = 2 →
        returns (@IdentityTransformer.transform Samples.lenient Samples.array_1x3)
                fitted Samples.array_1x3)
     ∧ (3 ≠ 2 →
        fails_with (@IdentityTransformer.transform Samples.lenient Samples.array_1x3)
                   fitted (exn ValueError (wrong_shape 2 3)))).
Proof.
  intros self fitted. repeat (split; [reflexivity |]).
  apply (@IdentityTransformer_fit_then_transform Samples.lenient self
           Samples.array_2x2 Samples.array_2x2 Samples.array_1x3 Samples.array_1x3
           2 2 1 3)%nat; reflexivity.
Defined.

Example identity_accepts_other_row_count :
  returns (@IdentityTransformer.transform Samples.lenient Samples.array_1x2)
          (snd (@IdentityTransformer.fit Samples.lenient Samples.array_2x2
                  (IdentityTransformer.__init__ false)))
          Samples.array_1x2.
Proof. reflexivity. Qed.
